(** * aiosteamist: a shallow embedding of the Steamist client

    The Python module [aiosteamist/__init__.py] is a thin asynchronous client
    for two generations of steam-shower controllers.  This development embeds
    its classes ([SteamistStatus], [Steamist], [SteamistModel550],
    [SteamistModel450]) and proves the properties of the status
    normalisation, of the transition smoothing and of the factory.

    Modelling conventions.
    - Python values that are dynamically typed in the source (the entries of
      [additional_data], the result of [xmltodict.parse], the fields of a
      status) are values of [pyobj].
    - A coroutine of a class with instance state [S] is a computation
      [M S A]: it receives the instance and the world, and yields a result
      (a raised exception or a value) together with the instance and the
      world as the coroutine left them.  Attribute assignments made before an
      exception is raised therefore remain visible afterwards, as in Python.
    - The world holds the monotonic clock and the log of network operations.
      An awaited collaborator ([ClientSession.request], [response.text],
      [AIODiscovery30303.async_scan]) answers with a [Reply]: the time it
      took and what it produced.
    - [time.monotonic()] is a float in the source; the clock is an exact
      rational here, so rounding of [now + 10] is not modelled.
    - A [string] stands for the Python [str] it is the UTF-8 encoding of.
      The patterns and the keys of the module are ASCII, so that matching
      and comparing bytes is matching and comparing code points.
    - [int] follows CPython ([PyLong_FromUnicodeObject],
      [PyLong_FromString]): Unicode spaces and decimal digits are first
      turned into their ASCII counterparts, and a literal with more digits
      than the interpreter allows is refused.  The tables of the Unicode
      database and the digit limit belong to the interpreter, not to the
      module: they are the fields of [python]. *)

From Stdlib Require Import ZArith QArith Lqa String Ascii List.
From stdpp Require Import base option gmap strings.
Import ListNotations.

Set Warnings "-register-all".
Local Open Scope string_scope.

(** ** Python values and exceptions *)

Inductive pyobj :=
| PyNone
| PyBool (b : bool)
| PyInt (n : Z)
| PyStr (s : string)
| PyDict (d : gmap string pyobj)
| PyList (l : list pyobj).

Inductive exn :=
| NotImplementedError (msg : string)
| KeyError (key : string)
| TypeError
| ValueError
| CollaboratorError (what : string).

(** [d[k]] for a string key: only a dict can be subscripted by a string. *)
Definition py_getitem (o : pyobj) (k : string) : exn + pyobj :=
  match o with
  | PyDict d => match d !! k with
                | Some v => inr v
                | None => inl (KeyError k)
                end
  | _ => inl TypeError
  end.

(** [v != 0]. *)
Definition py_ne_zero (v : pyobj) : bool :=
  match v with
  | PyInt n => negb (n =? 0)%Z
  | PyBool b => b
  | _ => true
  end.

(** ** Characters and [int(str)] *)

Definition is_digit (c : ascii) : bool :=
  ((48 <=? N_of_ascii c) && (N_of_ascii c <=? 57))%N.

Definition digit_value (c : ascii) : Z := Z.of_N (N_of_ascii c) - 48.

(** C [isspace]: tab, line feed, vertical tab, form feed, carriage return,
    space. *)
Definition is_space (c : ascii) : bool :=
  let n := N_of_ascii c in
  (((9 <=? n) && (n <=? 13)) || (n =? 32))%N.

Fixpoint lstrip (l : list ascii) : list ascii :=
  match l with
  | c :: r => if is_space c then lstrip r else l
  | [] => []
  end.

Definition strip (l : list ascii) : list ascii :=
  rev (lstrip (rev (lstrip l))).

(** The digits after the first one: a single underscore may separate two
    digits. *)
Fixpoint int_body (acc : Z) (l : list ascii) : option Z :=
  match l with
  | [] => Some acc
  | c :: r =>
      if is_digit c then int_body (acc * 10 + digit_value c) r
      else if Ascii.eqb c "_" then
        match r with
        | d :: r' =>
            if is_digit d then int_body (acc * 10 + digit_value d) r'
            else None
        | [] => None
        end
      else None
  end.

(** The interpreter: the limit [sys.get_int_max_str_digits()] (4300 unless
    configured otherwise, 0 for no limit) and the two tables of the Unicode
    database that [int] consults. *)
Class python := {
  int_max_str_digits : N;
  Py_UNICODE_ISSPACE : N -> bool;
  Py_UNICODE_TODECIMAL : N -> option N;
}.

(** [_PY_LONG_MAX_STR_DIGITS_THRESHOLD] and the test of [PyLong_FromString]:
    a literal of [digits] digits is refused when it has more than 640
    digits, a limit is set and it has more digits than the limit. *)
Definition digit_limit_allows `{python} (digits : N) : bool :=
  negb ((640 <? digits) && (0 <? int_max_str_digits)
        && (int_max_str_digits <? digits))%N.

(** An unsigned literal: the grammar, then the limit on the number of its
    digits (underscores are not counted, leading zeros are). *)
Definition int_unsigned `{python} (l : list ascii) : option Z :=
  match l with
  | c :: r =>
      if is_digit c then
        match int_body (digit_value c) r with
        | Some v =>
            if digit_limit_allows
                 (N.of_nat (length (List.filter is_digit l)))
            then Some v else None
        | None => None
        end
      else None
  | [] => None
  end.

(** [PyLong_FromString], base 10, with the test that the whole text was
    consumed: spaces, a sign, the literal, spaces. *)
Definition PyLong_FromString `{python} (text : list ascii) : option Z :=
  let l := strip text in
  match l with
  | c :: r =>
      if Ascii.eqb c "-" then Z.opp <$> int_unsigned r
      else if Ascii.eqb c "+" then int_unsigned r
      else int_unsigned l
  | [] => None
  end.

(** The code points a UTF-8 text encodes (shortest form, no surrogate, at
    most U+10FFFF); [None] for bytes that encode no [str]. *)
Definition continuation (c : ascii) : option N :=
  let n := N_of_ascii c in
  if ((128 <=? n) && (n <? 192))%N then Some (n - 128)%N else None.

Fixpoint utf8_decode (l : list ascii) : option (list N) :=
  match l with
  | [] => Some []
  | b0 :: r =>
      let n0 := N_of_ascii b0 in
      if (n0 <? 128)%N then cons n0 <$> utf8_decode r
      else if ((194 <=? n0) && (n0 <? 224))%N then
        match r with
        | b1 :: r1 =>
            match continuation b1 with
            | Some c1 => cons ((n0 - 192) * 64 + c1)%N <$> utf8_decode r1
            | None => None
            end
        | [] => None
        end
      else if ((224 <=? n0) && (n0 <? 240))%N then
        match r with
        | b1 :: b2 :: r2 =>
            match continuation b1, continuation b2 with
            | Some c1, Some c2 =>
                let cp := ((n0 - 224) * 4096 + c1 * 64 + c2)%N in
                if ((2048 <=? cp)
                    && negb ((55296 <=? cp) && (cp <? 57344)))%N
                then cons cp <$> utf8_decode r2 else None
            | _, _ => None
            end
        | _ => None
        end
      else if ((240 <=? n0) && (n0 <? 245))%N then
        match r with
        | b1 :: b2 :: b3 :: r3 =>
            match continuation b1, continuation b2, continuation b3 with
            | Some c1, Some c2, Some c3 =>
                let cp := ((n0 - 240) * 262144 + c1 * 4096 + c2 * 64
                           + c3)%N in
                if ((65536 <=? cp) && (cp <=? 1114111))%N
                then cons cp <$> utf8_decode r3 else None
            | _, _, _ => None
            end
        | _ => None
        end
      else None
  end.

(** [_PyUnicode_TransformDecimalAndSpaceToASCII]: an ASCII [str] is taken
    as it is; in any other, a code point below 127 is kept, a Unicode space
    becomes a space, a Unicode decimal digit becomes the ASCII digit of its
    value, and anything else becomes [?], which no literal contains. *)
Definition to_ascii_char `{python} (ch : N) : ascii :=
  if (ch <? 127)%N then ascii_of_N ch
  else if Py_UNICODE_ISSPACE ch then " "%char
  else match Py_UNICODE_TODECIMAL ch with
       | Some d => ascii_of_N (48 + d)
       | None => "?"%char
       end.

Definition transform_decimal_and_space `{python} (cps : list N)
  : list ascii :=
  if forallb (fun ch => ch <? 128)%N cps then map ascii_of_N cps
  else map to_ascii_char cps.

(** [int(s)] for a [str]: [None] is [ValueError]. *)
Definition int_of_str `{python} (s : string) : option Z :=
  match utf8_decode (list_ascii_of_string s) with
  | Some cps => PyLong_FromString (transform_decimal_and_space cps)
  | None => None
  end.

(** [int(v)]. *)
Definition py_int `{python} (v : pyobj) : exn + Z :=
  match v with
  | PyInt n => inr n
  | PyBool b => inr (if b then 1 else 0)%Z
  | PyStr s => match int_of_str s with
               | Some n => inr n
               | None => inl ValueError
               end
  | _ => inl TypeError
  end.

(** The value of a run of decimal digits, most significant first. *)
Definition decimal (ds : list ascii) : Z :=
  fold_left (fun acc c => acc * 10 + digit_value c)%Z ds 0%Z.

(** ** The two temperature patterns

    [re.compile("([0-9]+)X" + u).match(s)]: the match is anchored at the
    start of [s] only; the result is group 1. *)

Fixpoint span_digits (s : string) : string * string :=
  match s with
  | String c r =>
      if is_digit c then
        let '(ds, rest) := span_digits r in (String c ds, rest)
      else (EmptyString, s)
  | EmptyString => (EmptyString, EmptyString)
  end.

Definition temp_regex_match (u : ascii) (s : string) : option string :=
  let '(ds, rest) := span_digits s in
  match ds, rest with
  | String _ _, String x (String v _) =>
      if Ascii.eqb x "X" && Ascii.eqb v u then Some ds else None
  | _, _ => None
  end.

Definition TEMP_REGEX_F : string -> option string := temp_regex_match "F".
Definition TEMP_REGEX_C : string -> option string := temp_regex_match "C".

(** [pattern.match(v)]: anything but a string is a [TypeError]. *)
Definition re_match (pattern : string -> option string) (v : pyobj)
  : exn + option string :=
  match v with
  | PyStr s => inr (pattern s)
  | _ => inl TypeError
  end.

(** ** Constants of the module *)

Definition DEFAULT_REQUEST_TIMEOUT : Z := 10.
Definition STATUS_ENDPOINT : string := "/status.xml".
Definition SET_ENDPOINT : string := "/leds.cgi".
Definition STEAM_ON_LED : Z := 6.
Definition STEAM_OFF_LED : Z := 7.
Definition NEVER_TIME : Q := -1200.

(** ** The world: clock and network *)

Record HttpRequest := {
  method : string;
  url : string;
  timeout : Z;
  params : option (list (string * Z));
}.

Inductive NetEvent :=
| HttpExchange (req : HttpRequest)
| Scan30303 (scan_timeout : Z) (address : string).

(** [clock] is what [time.monotonic()] returns; [traffic] lists the network
    operations started so far, most recent first. *)
Record World := {
  clock : Q;
  traffic : list NetEvent;
}.

(** What an awaited collaborator does: it takes [elapsed] seconds and then
    raises or returns. *)
Record Reply (A : Type) := {
  elapsed : Q;
  outcome : exn + A;
}.
Arguments elapsed {A} _.
Arguments outcome {A} _.

(** ** Coroutines over an instance *)

Record Outcome (S A : Type) := {
  result : exn + A;
  self_after : S;
  world_after : World;
}.
Arguments result {S A} _.
Arguments self_after {S A} _.
Arguments world_after {S A} _.

Definition M (S A : Type) : Type := S -> World -> Outcome S A.

Definition ret {S A} (a : A) : M S A :=
  fun self w => {| result := inr a; self_after := self; world_after := w |}.

Definition raise {S A} (e : exn) : M S A :=
  fun self w => {| result := inl e; self_after := self; world_after := w |}.

Definition bind {S A B} (m : M S A) (k : A -> M S B) : M S B :=
  fun self w =>
    let o := m self w in
    match result o with
    | inr a => k a (self_after o) (world_after o)
    | inl e => {| result := inl e; self_after := self_after o;
                  world_after := world_after o |}
    end.

Declare Scope coroutine_scope.
Delimit Scope coroutine_scope with co.
Notation "x <- m ;; k" := (bind m (fun x => k))
  (at level 100, m at next level, right associativity) : coroutine_scope.
Notation "m ;;; k" := (bind m (fun _ => k))
  (at level 100, right associativity) : coroutine_scope.
Local Open Scope coroutine_scope.

(** Sequencing of pure steps that may raise. *)
Definition ebind {A B} (r : exn + A) (k : A -> exn + B) : exn + B :=
  match r with
  | inr a => k a
  | inl e => inl e
  end.
Notation "x <-? r ;; k" := (ebind r (fun x => k))
  (at level 100, r at next level, right associativity) : coroutine_scope.

(** A pure step that may raise. *)
Definition lift {S A} (r : exn + A) : M S A :=
  match r with
  | inr a => ret a
  | inl e => raise e
  end.

(** [self.attr] and [self.attr = v]. *)
Definition attr {S A} (get : S -> A) : M S A :=
  fun self w => {| result := inr (get self); self_after := self;
                   world_after := w |}.

Definition assign {S} (set : S -> S) : M S unit :=
  fun self w => {| result := inr tt; self_after := set self;
                   world_after := w |}.

(** [time.monotonic()]. *)
Definition monotonic {S} : M S Q :=
  fun self w => {| result := inr (clock w); self_after := self;
                   world_after := w |}.

(** [await io]: the network operations [evs] are logged, the clock advances
    by the time the collaborator took. *)
Definition await {S A} (evs : list NetEvent) (io : World -> Reply A)
  : M S A :=
  fun self w =>
    let r := io w in
    {| result := outcome r; self_after := self;
       world_after := {| clock := clock w + elapsed r;
                         traffic := evs ++ traffic w |} |}.

(** A method of a base class run on the base part of a subclass instance. *)
Definition on_super {S T A} (get : T -> S) (set : S -> T -> T) (m : M S A)
  : M T A :=
  fun self w =>
    let o := m (get self) w in
    {| result := result o; self_after := set (self_after o) self;
       world_after := world_after o |}.

(** [try: m except Exception as e: ...]: the caller goes on with the
    instance and the world as the failed call left them. *)
Definition catch {S A} (m : M S A) : M S (exn + A) :=
  fun self w =>
    let o := m self w in
    {| result := inr (result o); self_after := self_after o;
       world_after := world_after o |}.

(** ** External collaborators *)

(** [discovery30303]: a discovered device, the two model constants and the
    one-shot scan. *)
Record Device30303 := {
  additional_data : gmap string pyobj;
}.

Class discovery30303 := {
  MODEL_550 : string;
  MODEL_450 : string;
  async_scan : Z -> string -> World -> Reply (list Device30303);
}.

(** [xmltodict.parse]. *)
Class xmltodict := {
  xmltodict_parse : string -> exn + pyobj;
}.

(** [aiohttp]: a response whose body is awaited, and the session. *)
Record ClientResponse := {
  text : World -> Reply string;
}.

Record ClientSession := {
  request : HttpRequest -> World -> Reply ClientResponse;
}.

(** ** SteamistStatus *)

Module SteamistStatus.

Record t := {
  temp : pyobj;
  temp_units : pyobj;
  minutes_remain : pyobj;
  seconds_remain : pyobj;
  active : bool;
}.

(** The dataclass defaults: [SteamistStatus()]. *)
Definition default : t :=
  {| temp := PyInt 0; temp_units := PyStr ""; minutes_remain := PyInt 0;
     seconds_remain := PyInt 0; active := false |}.

Definition set_temp v (s : t) : t :=
  {| temp := v; temp_units := temp_units s;
     minutes_remain := minutes_remain s;
     seconds_remain := seconds_remain s; active := active s |}.
Definition set_temp_units v (s : t) : t :=
  {| temp := temp s; temp_units := v; minutes_remain := minutes_remain s;
     seconds_remain := seconds_remain s; active := active s |}.
Definition set_minutes_remain v (s : t) : t :=
  {| temp := temp s; temp_units := temp_units s; minutes_remain := v;
     seconds_remain := seconds_remain s; active := active s |}.
Definition set_seconds_remain v (s : t) : t :=
  {| temp := temp s; temp_units := temp_units s;
     minutes_remain := minutes_remain s; seconds_remain := v;
     active := active s |}.
Definition set_active b (s : t) : t :=
  {| temp := temp s; temp_units := temp_units s;
     minutes_remain := minutes_remain s;
     seconds_remain := seconds_remain s; active := b |}.

(** [steamist.additional_data[k]]. *)
Definition item (steamist : Device30303) (k : string) : exn + pyobj :=
  py_getitem (PyDict (additional_data steamist)) k.

(** Static factory: the status, or the exception a lookup raised.  The
    status under construction is a local of the method, so nothing of it
    survives an exception. *)
Definition create_from_device_30303 (steamist : Device30303) : exn + t :=
  let status := default in
  v <-? item steamist "temperature" ;;
  let status := set_temp v status in
  v <-? item steamist "temp_unit" ;;
  let status := set_temp_units v status in
  v <-? item steamist "minutesleft" ;;
  let status := set_minutes_remain v status in
  v <-? item steamist "secondsleft" ;;
  let status := set_seconds_remain v status in
  v <-? item steamist "profile" ;;
  let status := set_active (py_ne_zero v) status in
  inr status.

End SteamistStatus.

(** [a > b] on clock readings. *)
Definition Qgtb (a b : Q) : bool := negb (Qle_bool a b).

(** ** class Steamist *)

Module Steamist.

Record t := {
  _host : string;
  _timeout : Z;
  _transition_complete_time : Q;
  _transiton_state : bool;
  _auth_invalid : Z;
}.

Definition set_transition_complete_time (v : Q) (self : t) : t :=
  {| _host := _host self; _timeout := _timeout self;
     _transition_complete_time := v;
     _transiton_state := _transiton_state self;
     _auth_invalid := _auth_invalid self |}.

Definition set_transiton_state (v : bool) (self : t) : t :=
  {| _host := _host self; _timeout := _timeout self;
     _transition_complete_time := _transition_complete_time self;
     _transiton_state := v;
     _auth_invalid := _auth_invalid self |}.

Definition __init__ (host : string) (timeout : Z) : t :=
  {| _host := host; _timeout := timeout;
     _transition_complete_time := NEVER_TIME;
     _transiton_state := false;
     _auth_invalid := 0 |}.

Definition _async_set_transition (state : bool) : M t unit :=
  assign (set_transiton_state state) ;;;
  now <- monotonic ;;
  assign (set_transition_complete_time (now + 10)).

Definition async_turn_on_steam : M t unit :=
  _async_set_transition true.

Definition async_turn_off_steam : M t unit :=
  _async_set_transition false.

Definition async_get_status : M t SteamistStatus.t :=
  raise (NotImplementedError "Sub class should implement").

Definition model : exn + string :=
  inl (NotImplementedError "Must be overriden by subclass").

End Steamist.

(** ** class SteamistModel550(Steamist)

    The class adds no attribute and overrides [async_get_status] and
    [model]; the constructor and the two commands are inherited. *)

Module SteamistModel550.
Section WithDiscovery.
Context `{discovery30303}.

Definition t : Type := Steamist.t.

Definition __init__ : string -> Z -> t := Steamist.__init__.

Definition async_turn_on_steam : M t unit := Steamist.async_turn_on_steam.

Definition async_turn_off_steam : M t unit :=
  Steamist.async_turn_off_steam.

(** [None] is Python's [None]: the value of a call that falls off the end
    of the function. *)
Definition async_get_status : M t (option SteamistStatus.t) :=
  host <- attr Steamist._host ;;
  found_devices <- await [Scan30303 5 host] (async_scan 5 host) ;;
  match found_devices with
  | device :: _ =>
      status <- lift (SteamistStatus.create_from_device_30303 device) ;;
      ret (Some status)
  | [] => ret None
  end.

Definition model : exn + string := inr MODEL_550.

End WithDiscovery.
End SteamistModel550.

(** ** class SteamistModel450(Steamist) *)

Module SteamistModel450.

Record t := {
  super : Steamist.t;
  _websession : ClientSession;
}.

Definition set_super (s : Steamist.t) (self : t) : t :=
  {| super := s; _websession := _websession self |}.

Definition __init__ (host : string) (websession : ClientSession)
    (timeout : Z) : t :=
  {| super := Steamist.__init__ host timeout; _websession := websession |}.

Definition _async_set_transition (state : bool) : M t unit :=
  on_super super set_super (Steamist._async_set_transition state).

Definition _get (endpoint : string) (params : option (list (string * Z)))
  : M t string :=
  websession <- attr _websession ;;
  host <- attr (fun self => Steamist._host (super self)) ;;
  timeout <- attr (fun self => Steamist._timeout (super self)) ;;
  let req := {| method := "GET"; url := "http://" +:+ host +:+ endpoint;
                timeout := timeout; params := params |} in
  response <- await [HttpExchange req] (request websession req) ;;
  await [] (text response).

(** The choice of temperature and unit from the two match objects
    ([units = "F"] ... [units = "C"]): the Fahrenheit match is tested
    first, the Celsius match only when it is absent; with neither,
    [temp] stays [None] and [units] stays ["F"]. *)
Definition temp_and_units `{python} (groups_f groups_c : option string)
  : exn + (pyobj * string) :=
  let units := "F" in
  let temp := PyNone in
  match groups_f with
  | Some g => n <-? py_int (PyStr g) ;; inr (PyInt n, units)
  | None =>
      match groups_c with
      | Some g => n <-? py_int (PyStr g) ;; inr (PyInt n, "C")
      | None => inr (temp, units)
      end
  end.

Section WithXmltodict.
Context `{xmltodict} `{python}.

Definition async_get_status : M t SteamistStatus.t :=
  body <- _get STATUS_ENDPOINT None ;;
  data <- lift (xmltodict_parse body) ;;
  response <- lift (py_getitem data "response") ;;
  temp0 <- lift (py_getitem response "temp0") ;;
  groups_f <- lift (re_match TEMP_REGEX_F temp0) ;;
  temp0 <- lift (py_getitem response "temp0") ;;
  groups_c <- lift (re_match TEMP_REGEX_C temp0) ;;
  tu <- lift (temp_and_units groups_f groups_c) ;;
  let '(temp, units) := tu in
  time0 <- lift (py_getitem response "time0") ;;
  minutes_remain <- lift (py_int time0) ;;
  complete <- attr (fun self =>
                      Steamist._transition_complete_time (super self)) ;;
  now <- monotonic ;;
  active <- (if Qgtb complete now
             then attr (fun self =>
                          Steamist._transiton_state (super self))
             else ret (0 <? minutes_remain)%Z) ;;
  ret {| SteamistStatus.temp := temp;
         SteamistStatus.temp_units := PyStr units;
         SteamistStatus.minutes_remain := PyInt minutes_remain;
         SteamistStatus.active := active;
         SteamistStatus.seconds_remain := PyInt 0 |}.

End WithXmltodict.

Definition async_set_led (id : Z) : M t unit :=
  _get SET_ENDPOINT (Some [("led", id)]) ;;;
  ret tt.

Definition async_turn_on_steam : M t unit :=
  async_set_led STEAM_ON_LED ;;;
  _async_set_transition true.

Definition async_turn_off_steam : M t unit :=
  async_set_led STEAM_OFF_LED ;;;
  _async_set_transition false.

Definition model `{discovery30303} : exn + string := inr MODEL_450.

End SteamistModel450.

(** ** Instances and dynamic dispatch *)

Inductive instance :=
| IsSteamist (self : Steamist.t)
| IsModel550 (self : Steamist.t)
| IsModel450 (self : SteamistModel450.t).

(** [Steamist.create_steamist_from]: a static method of the base class; it
    names both subclasses, so it is stated after them. *)
(** What the caller passes as [websession]: a callable without arguments
    that returns a session or raises. *)
Definition session_factory : Type := unit -> exn + ClientSession.

Definition create_steamist_from `{discovery30303} (host model : string)
    (websession : session_factory) : exn + instance :=
  model_550 <-? SteamistModel550.model ;;
  if String.eqb model model_550 then
    inr (IsModel550 (SteamistModel550.__init__ host DEFAULT_REQUEST_TIMEOUT))
  else
    session <-? websession tt ;;
    inr (IsModel450 (SteamistModel450.__init__ host session
                       DEFAULT_REQUEST_TIMEOUT)).

(** A method of class [S] invoked on an instance whose class is known only
    at run time. *)
Definition invoke {S A} (wrap : S -> instance) (m : M S A) (self : S)
    (w : World) : Outcome instance A :=
  let o := m self w in
  {| result := result o; self_after := wrap (self_after o);
     world_after := world_after o |}.

Definition async_turn_on_steam : M instance unit :=
  fun self w =>
    match self with
    | IsSteamist s => invoke IsSteamist Steamist.async_turn_on_steam s w
    | IsModel550 s =>
        invoke IsModel550 SteamistModel550.async_turn_on_steam s w
    | IsModel450 s =>
        invoke IsModel450 SteamistModel450.async_turn_on_steam s w
    end.

Definition async_turn_off_steam : M instance unit :=
  fun self w =>
    match self with
    | IsSteamist s => invoke IsSteamist Steamist.async_turn_off_steam s w
    | IsModel550 s =>
        invoke IsModel550 SteamistModel550.async_turn_off_steam s w
    | IsModel450 s =>
        invoke IsModel450 SteamistModel450.async_turn_off_steam s w
    end.

Definition async_get_status `{discovery30303} `{xmltodict} `{python}
  : M instance (option SteamistStatus.t) :=
  fun self w =>
    match self with
    | IsSteamist s =>
        invoke IsSteamist
          (status <- Steamist.async_get_status ;; ret (Some status)) s w
    | IsModel550 s =>
        invoke IsModel550 SteamistModel550.async_get_status s w
    | IsModel450 s =>
        invoke IsModel450
          (status <- SteamistModel450.async_get_status ;; ret (Some status))
          s w
    end.

Definition model `{discovery30303} (self : instance) : exn + string :=
  match self with
  | IsSteamist _ => Steamist.model
  | IsModel550 _ => SteamistModel550.model
  | IsModel450 _ => SteamistModel450.model
  end.

(** The attributes every instance inherits from [Steamist]. *)
Definition base (self : instance) : Steamist.t :=
  match self with
  | IsSteamist s | IsModel550 s => s
  | IsModel450 s => SteamistModel450.super s
  end.

(** The transition smoother of an instance: pending state and expiry. *)
Definition transition (self : instance) : bool * Q :=
  (Steamist._transiton_state (base self),
   Steamist._transition_complete_time (base self)).

(** The same instance with another smoother state. *)
Definition with_transition (b : bool) (t : Q) (self : instance) : instance :=
  let upd s :=
    Steamist.set_transition_complete_time t
      (Steamist.set_transiton_state b s) in
  match self with
  | IsSteamist s => IsSteamist (upd s)
  | IsModel550 s => IsModel550 (upd s)
  | IsModel450 s =>
      IsModel450 (SteamistModel450.set_super
                    (upd (SteamistModel450.super s)) s)
  end.

(** ** A caller driving one instance

    The caller issues commands, polls and lets time pass; an exception a
    call raises is caught and the caller goes on. *)

Inductive command := TurnOn | TurnOff.

Definition state_of (c : command) : bool :=
  match c with
  | TurnOn => true
  | TurnOff => false
  end.

Definition issue (c : command) : M instance unit :=
  match c with
  | TurnOn => async_turn_on_steam
  | TurnOff => async_turn_off_steam
  end.

Inductive step :=
| Command (c : command)
| Poll
| Sleep (seconds : Q).

(** [await asyncio.sleep(seconds)]. *)
Definition sleep {S} (seconds : Q) : M S unit :=
  fun self w =>
    {| result := inr tt; self_after := self;
       world_after := {| clock := clock w + seconds;
                         traffic := traffic w |} |}.

Definition perform `{discovery30303} `{xmltodict} `{python} (s : step)
  : M instance unit :=
  match s with
  | Command c => catch (issue c) ;;; ret tt
  | Poll => catch async_get_status ;;; ret tt
  | Sleep seconds => sleep seconds
  end.

Fixpoint run_script `{discovery30303} `{xmltodict} `{python}
    (steps : list step)
  : M instance unit :=
  match steps with
  | [] => ret tt
  | s :: rest => perform s ;;; run_script rest
  end.

(** ** What the properties speak of *)

Definition all_digits (s : string) : bool :=
  forallb is_digit (list_ascii_of_string s).

(** [ds] is what group 1 captures when [([0-9]+)Xu] matches at the start of
    [s]: a non-empty run of digits followed by [X] and the unit letter. *)
Definition matches_temp (u : ascii) (s ds : string) : Prop :=
  ds <> "" /\ all_digits ds = true /\
  exists rest, s = ds +:+ String "X" (String u rest).

(** The device answers the status request that [self] makes in world [w]
    with a document whose [response] element carries the text [temp0] and
    a [time0] that [int] reads as [minutes]. *)
Definition responds `{xmltodict} `{python} (self : SteamistModel450.t)
    (w : World) (temp0 : string) (minutes : Z) : Prop :=
  exists body data response time0,
    result (SteamistModel450._get STATUS_ENDPOINT None self w) = inr body
    /\ xmltodict_parse body = inr data
    /\ py_getitem data "response" = inr response
    /\ py_getitem response "temp0" = inr (PyStr temp0)
    /\ py_getitem response "time0" = inr time0
    /\ py_int time0 = inr minutes.

(** The group of digits the status call hands to [int]: the group of the
    Fahrenheit pattern, else that of the Celsius pattern, if any. *)
Definition group_of (temp0 : string) : option string :=
  match TEMP_REGEX_F temp0 with
  | Some g => Some g
  | None => TEMP_REGEX_C temp0
  end.

(** [int] accepts the temperature of [temp0]: the group, if there is one,
    has no more digits than the interpreter allows. *)
Definition temp0_readable `{python} (temp0 : string) : bool :=
  match group_of temp0 with
  | Some g => digit_limit_allows (N.of_nat (String.length g))
  | None => true
  end.

(** The device answers with a document the status call can read: it
    responds as above, and [int] accepts the temperature of [temp0]. *)
Definition polled `{xmltodict} `{python} (self : SteamistModel450.t)
    (w : World) (temp0 : string) (minutes : Z) : Prop :=
  responds self w temp0 minutes /\ temp0_readable temp0 = true.

(** The clock reading a status call takes: the clock once the request has
    been answered. *)
Definition reading (self : SteamistModel450.t) (w : World) : Q :=
  clock (world_after (SteamistModel450._get STATUS_ENDPOINT None self w)).

Definition led_of (c : command) : Z :=
  match c with
  | TurnOn => STEAM_ON_LED
  | TurnOff => STEAM_OFF_LED
  end.

Definition issue450 (c : command) : M SteamistModel450.t unit :=
  match c with
  | TurnOn => SteamistModel450.async_turn_on_steam
  | TurnOff => SteamistModel450.async_turn_off_steam
  end.

(** The control request of a command. *)
Definition control (c : command) : M SteamistModel450.t string :=
  SteamistModel450._get SET_ENDPOINT (Some [("led", led_of c)]).

(** [self] once [_async_set_transition state] has run at clock reading
    [now]. *)
Definition armed (state : bool) (now : Q) (self : Steamist.t) : Steamist.t :=
  Steamist.set_transition_complete_time (now + 10)
    (Steamist.set_transiton_state state self).

Definition script_self `{discovery30303} `{xmltodict} `{python}
    (steps : list step) (self : instance) (w : World) : instance :=
  self_after (run_script steps self w).

Definition script_world `{discovery30303} `{xmltodict} `{python}
    (steps : list step) (self : instance) (w : World) : World :=
  world_after (run_script steps self w).

(** The keys [create_from_device_30303] reads, in the order it reads
    them, and the first of them a dict lacks. *)
Definition required_keys : list string :=
  ["temperature"; "temp_unit"; "minutesleft"; "secondsleft"; "profile"].

Definition lacks (d : gmap string pyobj) (k : string) : bool :=
  match d !! k with
  | Some _ => false
  | None => true
  end.

Definition first_missing (d : gmap string pyobj) : option string :=
  List.find (lacks d) required_keys.

(** The request a call of [_get] sends. *)
Definition request_of (self : SteamistModel450.t) (endpoint : string)
    (params : option (list (string * Z))) : HttpRequest :=
  {| method := "GET";
     url := "http://" +:+ Steamist._host (SteamistModel450.super self)
              +:+ endpoint;
     timeout := Steamist._timeout (SteamistModel450.super self);
     params := params |}.

Definition is_command (s : step) : bool :=
  match s with
  | Command _ => true
  | _ => false
  end.

(** Whether a step of the caller reaches the network on an instance of
    this class: every call of a 450, the polls of a 550, nothing of the base
    class. *)
Definition networked (self : instance) (s : step) : bool :=
  match self, s with
  | IsModel450 _, (Command _ | Poll) => true
  | IsModel550 _, Poll => true
  | _, _ => false
  end.

(** ** Sample collaborators *)

Module Sample.

Definition document (temp0 time0 : string) : pyobj :=
  PyDict {[ "response" :=
              PyDict (<[ "temp0" := PyStr temp0 ]>
                        {[ "time0" := PyStr time0 ]}) ]}.

(** A parser that knows the bodies of a table. *)
Definition parser (table : list (string * pyobj)) : xmltodict :=
  {| xmltodict_parse := fun body =>
       match find (fun entry => String.eqb (fst entry) body) table with
       | Some entry => inr (snd entry)
       | None => inl (CollaboratorError "ExpatError")
       end |}.

(** A device that answers every request with [body] after [latency]
    seconds. *)
Definition device (latency : Q) (body : string) : ClientSession :=
  {| request := fun _ _ =>
       {| elapsed := latency;
          outcome := inr {| text := fun _ =>
                              {| elapsed := 0; outcome := inr body |} |}
       |} |}.

(** A host that cannot be reached. *)
Definition unreachable : ClientSession :=
  {| request := fun _ _ =>
       {| elapsed := 10;
          outcome := inl (CollaboratorError "ClientConnectorError") |} |}.

Definition discovery (found : list Device30303) : discovery30303 :=
  {| MODEL_550 := "550"; MODEL_450 := "450";
     async_scan := fun _ _ _ => {| elapsed := 5; outcome := inr found |} |}.

(** CPython as shipped: the default limit of 4300 digits, and the spaces
    and the decimal digits of the Unicode database (each entry of
    [digit_zeros] is the digit zero of a run of ten). *)
Definition spaces : list N :=
  [9; 10; 11; 12; 13; 28; 29; 30; 31; 32; 133; 160; 5760; 8192; 8193; 8194;
   8195; 8196; 8197; 8198; 8199; 8200; 8201; 8202; 8232; 8233; 8239; 8287;
   12288]%N.

Definition digit_zeros : list N :=
  [48; 1632; 1776; 1984; 2406; 2534; 2662; 2790; 2918; 3046; 3174; 3302;
   3430; 3558; 3664; 3792; 3872; 4160; 4240; 6112; 6160; 6470; 6608; 6784;
   6800; 6992; 7088; 7232; 7248; 42528; 43216; 43264; 43472; 43504; 43600;
   44016; 65296; 66720; 68912; 69734; 69872; 69942; 70096; 70384; 70736;
   70864; 71248; 71360; 71472; 71904; 72016; 72784; 73040; 73120; 92768;
   92864; 93008; 120782; 120792; 120802; 120812; 120822; 123200; 123632;
   125264; 130032]%N.

Definition cpython : python :=
  {| int_max_str_digits := 4300;
     Py_UNICODE_ISSPACE := fun ch => existsb (N.eqb ch) spaces;
     Py_UNICODE_TODECIMAL := fun ch =>
       match List.find (fun z => (z <=? ch) && (ch <? z + 10))%N
               digit_zeros with
       | Some z => Some (ch - z)%N
       | None => None
       end |}.

Definition cold : string :=
  "<response><temp0>71XF</temp0><time0>0</time0></response>".
Definition running : string :=
  "<response><temp0>40XC</temp0><time0>12</time0></response>".
Definition garbled : string :=
  "<response><temp0>--</temp0><time0>5</time0></response>".

(** A [temp0] of 4301 nines followed by [XF]. *)
Definition nines : string := string_of_list_ascii (repeat "9"%char 4301).
Definition endless : string :=
  "<response><temp0>" +:+ nines +:+ "XF</temp0><time0>5</time0></response>".

Definition bodies : list (string * pyobj) :=
  [ (cold, document "71XF" "0");
    (running, document "40XC" "12");
    (garbled, document "--" "5");
    (endless, document (nines +:+ "XF") "5") ].

Definition start : World := {| clock := 100; traffic := [] |}.
Definition later : World := {| clock := 104; traffic := [] |}.
Definition much_later : World := {| clock := 130; traffic := [] |}.

(** A 450 behind a device that answers [body] half a second after each
    request. *)
Definition adapter450 (body : string) : SteamistModel450.t :=
  SteamistModel450.__init__ "192.168.1.40" (device (1 # 2) body)
    DEFAULT_REQUEST_TIMEOUT.

(** A 450 behind a device that takes 8 seconds to answer, and the world
    when the clock reads 115. *)
Definition slow450 : SteamistModel450.t :=
  SteamistModel450.__init__ "192.168.1.40" (device 8 cold)
    DEFAULT_REQUEST_TIMEOUT.
Definition at_115 : World := {| clock := 115; traffic := [] |}.

End Sample.

(** * Properties *)

(** ** The temperature patterns against their regular expressions *)

Lemma span_digits_sound s ds rest :
  span_digits s = (ds, rest) -> s = ds +:+ rest /\ all_digits ds = true.
Proof.
  revert ds rest. induction s as [|c r IH]; intros ds rest; simpl.
  - intros [= <- <-]. done.
  - destruct (is_digit c) eqn:Hc.
    + destruct (span_digits r) as [ds' rest'] eqn:Hr.
      intros [= <- <-]. destruct (IH _ _ eq_refl) as [-> Hds].
      split; [done|]. unfold all_digits; simpl. by rewrite Hc.
    + intros [= <- <-]. done.
Qed.

Lemma span_digits_complete ds c rest :
  all_digits ds = true -> is_digit c = false ->
  span_digits (ds +:+ String c rest) = (ds, String c rest).
Proof.
  intros Hds Hc. induction ds as [|d ds IH]; simpl.
  - by rewrite Hc.
  - unfold all_digits in Hds; simpl in Hds.
    apply andb_true_iff in Hds as [Hd Hds].
    rewrite Hd, (IH Hds). done.
Qed.

Lemma temp_regex_match_spec u s ds :
  temp_regex_match u s = Some ds <-> matches_temp u s ds.
Proof.
  unfold temp_regex_match, matches_temp. split.
  - destruct (span_digits s) as [ds' rest] eqn:Hspan.
    apply span_digits_sound in Hspan as [-> Hds].
    destruct ds' as [|d ds']; [done|].
    destruct rest as [|x [|v rest]]; try done.
    destruct (Ascii.eqb x "X") eqn:Hx; [|done].
    destruct (Ascii.eqb v u) eqn:Hv; [|done].
    apply Ascii.eqb_eq in Hx as ->. apply Ascii.eqb_eq in Hv as ->.
    intros [= <-]. repeat split; [done|done|by exists rest].
  - intros (Hne & Hds & rest & ->).
    rewrite span_digits_complete by done.
    destruct ds as [|d ds]; [done|].
    by rewrite !Ascii.eqb_refl.
Qed.

(** The two patterns never match the same string. *)
Lemma temp_regex_exclusive s f c :
  TEMP_REGEX_F s = Some f -> TEMP_REGEX_C s = Some c -> False.
Proof.
  unfold TEMP_REGEX_F, TEMP_REGEX_C, temp_regex_match.
  destruct (span_digits s) as [ds rest].
  destruct ds as [|d ds]; [done|].
  destruct rest as [|x [|v rest]]; try done.
  destruct (Ascii.eqb x "X"); [|done]. simpl.
  destruct (Ascii.eqb v "F") eqn:Hf; [|done].
  apply Ascii.eqb_eq in Hf as ->. done.
Qed.

(** ** [int] on a run of digits *)

Lemma is_digit_not_space c : is_digit c = true -> is_space c = false.
Proof.
  unfold is_digit, is_space. intros H.
  apply andb_true_iff in H as [H1 H2].
  apply N.leb_le in H1. apply N.leb_le in H2.
  apply orb_false_iff. split.
  - apply andb_false_iff. right. apply N.leb_gt. lia.
  - apply N.eqb_neq. lia.
Qed.

Lemma is_digit_not_char c (x : ascii) :
  is_digit c = true -> is_digit x = false -> Ascii.eqb c x = false.
Proof.
  intros Hc Hx. destruct (Ascii.eqb c x) eqn:E; [|done].
  apply Ascii.eqb_eq in E as ->. congruence.
Qed.

Lemma lstrip_digit c l : is_digit c = true -> lstrip (c :: l) = c :: l.
Proof. intros H. simpl. by rewrite (is_digit_not_space _ H). Qed.

Lemma strip_digits l :
  l <> [] -> forallb is_digit l = true -> strip l = l.
Proof.
  intros Hne Hall. unfold strip.
  destruct l as [|c l]; [done|].
  simpl in Hall. apply andb_true_iff in Hall as [Hc Hall].
  rewrite (lstrip_digit _ _ Hc).
  destruct (rev (c :: l)) as [|z r] eqn:Hrev.
  - apply (f_equal (@rev _)) in Hrev. rewrite rev_involutive in Hrev. done.
  - assert (Hz : is_digit z = true).
    { assert (Hin : In z (c :: l)).
      { apply in_rev. rewrite Hrev. by left. }
      assert (Hall' : forallb is_digit (c :: l) = true).
      { simpl. by rewrite Hc, Hall. }
      rewrite forallb_forall in Hall'. by apply Hall'. }
    rewrite (lstrip_digit _ _ Hz), <- Hrev. apply rev_involutive.
Qed.

Lemma int_body_digits l acc :
  forallb is_digit l = true ->
  int_body acc l =
    Some (fold_left (fun a c => a * 10 + digit_value c)%Z l acc).
Proof.
  revert acc. induction l as [|c l IH]; intros acc Hall; simpl; [done|].
  simpl in Hall. apply andb_true_iff in Hall as [Hc Hall].
  rewrite Hc. by apply IH.
Qed.

Lemma is_digit_ascii c : is_digit c = true -> (N_of_ascii c <? 128)%N = true.
Proof.
  unfold is_digit. intros [_ Hhi%N.leb_le]%andb_true_iff.
  apply N.ltb_lt. lia.
Qed.

(** ASCII text is its own UTF-8 encoding. *)
Lemma utf8_decode_ascii l :
  forallb (fun c => N_of_ascii c <? 128)%N l = true ->
  utf8_decode l = Some (map N_of_ascii l).
Proof.
  induction l as [|c l IH]; intros Hall; [done|].
  simpl in *. apply andb_true_iff in Hall as [Hc Hall].
  by rewrite Hc, (IH Hall).
Qed.

Lemma filter_digits l :
  forallb is_digit l = true -> List.filter is_digit l = l.
Proof.
  induction l as [|c l IH]; intros Hall; [done|].
  simpl in *. apply andb_true_iff in Hall as [Hc Hall].
  by rewrite Hc, (IH Hall).
Qed.

Lemma length_list_ascii_of_string s :
  length (list_ascii_of_string s) = String.length s.
Proof. induction s as [|c s IH]; simpl; [done|by rewrite IH]. Qed.

Lemma forallb_code_points l :
  forallb (fun ch => ch <? 128)%N (map N_of_ascii l) =
    forallb (fun c => N_of_ascii c <? 128)%N l.
Proof. induction l as [|c l IH]; simpl; [done|by rewrite IH]. Qed.

Section Int.
Context `{python}.

(** [PyLong_FromString] on a run of digits: its value, unless it has more
    digits than the interpreter allows. *)
Lemma PyLong_FromString_digits l :
  l <> [] -> forallb is_digit l = true ->
  PyLong_FromString l =
    if digit_limit_allows (N.of_nat (length l))
    then Some (decimal l) else None.
Proof.
  unfold PyLong_FromString, decimal. intros Hne Hall.
  rewrite strip_digits by done.
  destruct l as [|c l]; [done|].
  pose proof Hall as Hall'. simpl in Hall'.
  apply andb_true_iff in Hall' as [Hc Htail].
  rewrite (is_digit_not_char c "-"), (is_digit_not_char c "+") by done.
  unfold int_unsigned. rewrite Hc, int_body_digits by done.
  by rewrite filter_digits.
Qed.

Lemma int_of_str_digits ds :
  ds <> "" -> all_digits ds = true ->
  int_of_str ds =
    if digit_limit_allows (N.of_nat (String.length ds))
    then Some (decimal (list_ascii_of_string ds)) else None.
Proof.
  unfold all_digits, int_of_str. intros Hne Hall.
  assert (Hascii : forallb (fun c => N_of_ascii c <? 128)%N
                     (list_ascii_of_string ds) = true).
  { apply forallb_forall. intros c Hin. apply is_digit_ascii.
    rewrite forallb_forall in Hall. by apply Hall. }
  rewrite (utf8_decode_ascii _ Hascii).
  unfold transform_decimal_and_space.
  rewrite forallb_code_points, Hascii.
  rewrite map_map.
  rewrite (map_ext _ (fun c => c)) by apply ascii_N_embedding.
  rewrite map_id.
  rewrite PyLong_FromString_digits; [|by destruct ds|done].
  by rewrite length_list_ascii_of_string.
Qed.

Lemma py_int_group u s ds :
  temp_regex_match u s = Some ds ->
  py_int (PyStr ds) =
    if digit_limit_allows (N.of_nat (String.length ds))
    then inr (decimal (list_ascii_of_string ds)) else inl ValueError.
Proof.
  intros (Hne & Hds & _)%temp_regex_match_spec. simpl.
  rewrite int_of_str_digits by done.
  by destruct (digit_limit_allows _).
Qed.
End Int.

(** ** Stepping through coroutines *)

(** Unfolds the steps of a coroutine and splits on every value a step
    scrutinises. *)
Ltac by_cases_on_steps :=
  unfold bind, lift, attr, monotonic, ret, raise; simpl;
  repeat match goal with
         | |- context [match ?x with _ => _ end] =>
             destruct x; simpl; try done
         end.

(** The sample device answered with [body], which parses to [doc]. *)
Ltac answered body doc :=
  split; [exists body, doc; do 2 eexists; repeat split; reflexivity
         |reflexivity].

Lemma bind_returns {S A B} (m : M S A) (k : A -> M S B) self w a :
  result (m self w) = inr a ->
  bind m k self w = k a (self_after (m self w)) (world_after (m self w)).
Proof. intros Hm. unfold bind. by rewrite Hm. Qed.

Lemma bind_raises {S A B} (m : M S A) (k : A -> M S B) self w e :
  result (m self w) = inl e ->
  bind m k self w =
    {| result := inl e; self_after := self_after (m self w);
       world_after := world_after (m self w) |}.
Proof. intros Hm. unfold bind. by rewrite Hm. Qed.

Lemma Qgtb_true a b : Qgtb a b = true <-> (b < a)%Q.
Proof.
  unfold Qgtb. rewrite negb_true_iff, <- not_true_iff_false, Qle_bool_iff.
  split; [apply Qnot_le_lt | apply Qlt_not_le].
Qed.

Lemma Qgtb_false a b : Qgtb a b = false <-> (a <= b)%Q.
Proof. unfold Qgtb. by rewrite negb_false_iff, Qle_bool_iff. Qed.

(** ** The HTTP request of the 450 *)

Lemma _get_self endpoint params self w :
  self_after (SteamistModel450._get endpoint params self w) = self.
Proof.
  unfold SteamistModel450._get, bind, attr, await; simpl.
  by destruct (outcome (request _ _ w)).
Qed.

(** Whatever it answers, a request is one exchange on the network. *)
Lemma _get_traffic endpoint params self w :
  traffic (world_after (SteamistModel450._get endpoint params self w)) =
    HttpExchange
      {| method := "GET";
         url := "http://" +:+ Steamist._host (SteamistModel450.super self)
                  +:+ endpoint;
         timeout := Steamist._timeout (SteamistModel450.super self);
         params := params |} :: traffic w.
Proof.
  unfold SteamistModel450._get, bind, attr, await; simpl.
  by destruct (outcome (request _ _ w)).
Qed.

Section Status450.
Context `{xmltodict} `{python}.

(** A status call never changes the instance. *)
Lemma async_get_status_self self w :
  self_after (SteamistModel450.async_get_status self w) = self.
Proof.
  unfold SteamistModel450.async_get_status.
  pose proof (_get_self STATUS_ENDPOINT None self w) as Hself.
  unfold bind at 1.
  destruct (SteamistModel450._get STATUS_ENDPOINT None self w)
    as [[e|body] self' w']; simpl in *; [done|]. subst self'.
  by_cases_on_steps.
Qed.

(** On the output of the two patterns the choice raises only when [int]
    refuses the group for its number of digits. *)
Lemma temp_and_units_regex temp0 :
  SteamistModel450.temp_and_units (TEMP_REGEX_F temp0)
      (TEMP_REGEX_C temp0) =
    match TEMP_REGEX_F temp0, TEMP_REGEX_C temp0 with
    | Some g, _ =>
        if digit_limit_allows (N.of_nat (String.length g))
        then inr (PyInt (decimal (list_ascii_of_string g)), "F")
        else inl ValueError
    | None, Some g =>
        if digit_limit_allows (N.of_nat (String.length g))
        then inr (PyInt (decimal (list_ascii_of_string g)), "C")
        else inl ValueError
    | None, None => inr (PyNone, "F")
    end.
Proof.
  unfold SteamistModel450.temp_and_units.
  destruct (TEMP_REGEX_F temp0) as [g|] eqn:Hf.
  - unfold ebind. rewrite (py_int_group _ _ _ Hf).
    by destruct (digit_limit_allows _).
  - destruct (TEMP_REGEX_C temp0) as [g|] eqn:Hc; [|done].
    unfold ebind. rewrite (py_int_group _ _ _ Hc).
    by destruct (digit_limit_allows _).
Qed.

(** It returns when the temperature is readable. *)
Lemma temp_and_units_readable temp0 :
  temp0_readable temp0 = true ->
  SteamistModel450.temp_and_units (TEMP_REGEX_F temp0)
      (TEMP_REGEX_C temp0) =
    inr match TEMP_REGEX_F temp0, TEMP_REGEX_C temp0 with
        | Some g, _ => (PyInt (decimal (list_ascii_of_string g)), "F")
        | None, Some g => (PyInt (decimal (list_ascii_of_string g)), "C")
        | None, None => (PyNone, "F")
        end.
Proof.
  unfold temp0_readable, group_of. rewrite temp_and_units_regex.
  destruct (TEMP_REGEX_F temp0) as [g|]; [by intros ->|].
  destruct (TEMP_REGEX_C temp0) as [g|]; [by intros ->|done].
Qed.

(** And it returns only then. *)
Lemma temp_and_units_returns temp0 tu :
  SteamistModel450.temp_and_units (TEMP_REGEX_F temp0)
      (TEMP_REGEX_C temp0) = inr tu ->
  temp0_readable temp0 = true.
Proof.
  unfold temp0_readable, group_of. rewrite temp_and_units_regex.
  destruct (TEMP_REGEX_F temp0) as [g|].
  { by destruct (digit_limit_allows _). }
  destruct (TEMP_REGEX_C temp0) as [g|]; [|done].
  by destruct (digit_limit_allows _).
Qed.

(** The status the call returns when the device responds and the choice of
    temperature returns. *)
Lemma async_get_status_responds self w temp0 minutes temp units :
  responds self w temp0 minutes ->
  SteamistModel450.temp_and_units (TEMP_REGEX_F temp0)
    (TEMP_REGEX_C temp0) = inr (temp, units) ->
  result (SteamistModel450.async_get_status self w) =
    inr {| SteamistStatus.temp := temp;
           SteamistStatus.temp_units := PyStr units;
           SteamistStatus.minutes_remain := PyInt minutes;
           SteamistStatus.seconds_remain := PyInt 0;
           SteamistStatus.active :=
             if Qgtb (Steamist._transition_complete_time
                        (SteamistModel450.super self))
                     (reading self w)
             then Steamist._transiton_state
                    (SteamistModel450.super self)
             else (0 <? minutes)%Z |}.
Proof.
  intros (body & data & response & time0 &
          Hget & Hparse & Hresp & Htemp & Htime & Hint) Htu.
  unfold SteamistModel450.async_get_status, reading.
  rewrite (bind_returns _ _ _ _ _ Hget), _get_self.
  set (w' := world_after _).
  unfold bind, lift, attr, monotonic, ret; simpl.
  rewrite Hparse; simpl. rewrite Hresp; simpl. rewrite Htemp; simpl.
  rewrite Htu; simpl. rewrite Htime; simpl. rewrite Hint; simpl.
  by destruct (Qgtb _ _).
Qed.

(** The status an answered poll returns. *)
Lemma async_get_status_polled self w temp0 minutes :
  polled self w temp0 minutes ->
  exists temp units,
    SteamistModel450.temp_and_units (TEMP_REGEX_F temp0)
      (TEMP_REGEX_C temp0) = inr (temp, units) /\
    result (SteamistModel450.async_get_status self w) =
      inr {| SteamistStatus.temp := temp;
             SteamistStatus.temp_units := PyStr units;
             SteamistStatus.minutes_remain := PyInt minutes;
             SteamistStatus.seconds_remain := PyInt 0;
             SteamistStatus.active :=
               if Qgtb (Steamist._transition_complete_time
                          (SteamistModel450.super self))
                       (reading self w)
               then Steamist._transiton_state
                      (SteamistModel450.super self)
               else (0 <? minutes)%Z |}.
Proof.
  intros [Hresp Hread].
  pose proof (temp_and_units_readable _ Hread) as Htu.
  destruct (match TEMP_REGEX_F temp0 with Some _ => _ | None => _ end)
    as [temp units] eqn:Hsel.
  exists temp, units. split; [done|].
  by apply (async_get_status_responds _ _ temp0).
Qed.

(** The world a status call leaves is the one its request left. *)
Lemma async_get_status_world self w :
  world_after (SteamistModel450.async_get_status self w) =
    world_after (SteamistModel450._get STATUS_ENDPOINT None self w).
Proof.
  unfold SteamistModel450.async_get_status.
  unfold bind at 1.
  destruct (SteamistModel450._get STATUS_ENDPOINT None self w)
    as [[e|body] self' w']; simpl in *; [done|].
  by_cases_on_steps.
Qed.
End Status450.

(** ** The commands of the 450 *)

Lemma _async_set_transition_run state self w :
  Steamist._async_set_transition state self w =
    {| result := inr tt; self_after := armed state (clock w) self;
       world_after := w |}.
Proof. reflexivity. Qed.

Lemma issue450_raises c self w e :
  result (control c self w) = inl e ->
  issue450 c self w =
    {| result := inl e; self_after := self;
       world_after := world_after (control c self w) |}.
Proof.
  intros Hget. unfold control in *.
  pose proof (_get_self SET_ENDPOINT (Some [("led", led_of c)]) self w)
    as Hself.
  destruct c; simpl in *;
    unfold SteamistModel450.async_turn_on_steam,
      SteamistModel450.async_turn_off_steam, SteamistModel450.async_set_led;
    unfold bind; rewrite Hget; simpl; by rewrite Hself.
Qed.

Lemma issue450_returns c self w body :
  result (control c self w) = inr body ->
  issue450 c self w =
    {| result := inr tt;
       self_after :=
         SteamistModel450.set_super
           (armed (state_of c) (clock (world_after (control c self w)))
              (SteamistModel450.super self)) self;
       world_after := world_after (control c self w) |}.
Proof.
  intros Hget. unfold control in *.
  pose proof (_get_self SET_ENDPOINT (Some [("led", led_of c)]) self w)
    as Hself.
  destruct c; simpl in *;
    unfold SteamistModel450.async_turn_on_steam,
      SteamistModel450.async_turn_off_steam, SteamistModel450.async_set_led,
      SteamistModel450._async_set_transition, on_super;
    unfold bind; rewrite Hget; simpl; by rewrite Hself.
Qed.

(** A command returns exactly when its control request does. *)
Lemma issue450_result c self w :
  result (issue450 c self w) = inr tt ->
  exists body, result (control c self w) = inr body.
Proof.
  destruct (result (control c self w)) as [e|body] eqn:Hget.
  - rewrite (issue450_raises _ _ _ _ Hget). done.
  - by exists body.
Qed.

(** ** C1: the status during and after the transition window *)

(** C1, amended.  On the HTTP/XML adapter, let a command ([turn_on] or
    [turn_off]) return in world [w0], and let a later status request, made
    in any world [w], be answered with a readable [temp0] and with a
    [time0] that reads as [minutes].  Then the status call returns a
    status and leaves the instance as the command left it, so that the
    same holds for every further call.  If the call reads the clock less
    than 10 seconds after the command armed the smoother, [active] is the
    commanded state (true after [turn_on], false after [turn_off])
    whatever [minutes] is; if it reads it 10 seconds after or later,
    [active] is [minutes > 0]. *)
Theorem status_active_follows_window `{xmltodict} `{python} (c : command)
    (self : SteamistModel450.t) (w0 w : World) (temp0 : string)
    (minutes : Z) :
  result (issue450 c self w0) = inr tt ->
  polled (self_after (issue450 c self w0)) w temp0 minutes ->
  exists status,
    result (SteamistModel450.async_get_status
              (self_after (issue450 c self w0)) w) = inr status
    /\ self_after (SteamistModel450.async_get_status
                     (self_after (issue450 c self w0)) w) =
         self_after (issue450 c self w0)
    /\ SteamistStatus.minutes_remain status = PyInt minutes
    /\ ((clock (world_after (SteamistModel450.async_get_status
                               (self_after (issue450 c self w0)) w))
           < clock (world_after (issue450 c self w0)) + 10)%Q ->
        SteamistStatus.active status = state_of c)
    /\ ((clock (world_after (issue450 c self w0)) + 10
           <= clock (world_after (SteamistModel450.async_get_status
                                    (self_after (issue450 c self w0)) w)))%Q
        -> SteamistStatus.active status = (0 <? minutes)%Z).
Proof.
  intros [body Hctl]%issue450_result Hpoll.
  rewrite (issue450_returns _ _ _ _ Hctl) in *. simpl in *.
  set (self' := SteamistModel450.set_super _ _) in *.
  destruct (async_get_status_polled _ _ _ _ Hpoll)
    as (temp & units & _ & Hres).
  rewrite async_get_status_self, async_get_status_world, Hres.
  eexists. split; [reflexivity|]. split; [reflexivity|]. simpl.
  split; [reflexivity|]. fold (reading self' w). split.
  - intros Hlt. apply Qgtb_true in Hlt. by rewrite Hlt.
  - intros Hle. apply Qgtb_false in Hle. by rewrite Hle.
Qed.

Lemma status_active_follows_window_witness :
  exists status,
    result (@SteamistModel450.async_get_status
        (Sample.parser Sample.bodies) Sample.cpython
              (self_after (issue450 TurnOn (Sample.adapter450 Sample.cold)
                             Sample.start))
              Sample.later) = inr status
    /\ SteamistStatus.minutes_remain status = PyInt 0
    /\ SteamistStatus.active status = true.
Proof.
  destruct (@status_active_follows_window
      (Sample.parser Sample.bodies) Sample.cpython
              TurnOn (Sample.adapter450 Sample.cold) Sample.start
              Sample.later "71XF" 0%Z)
    as (status & Hres & _ & Hmin & Hin & _).
  - reflexivity.
  - answered Sample.cold (Sample.document "71XF" "0").
  - exists status. split; [exact Hres|]. split; [exact Hmin|].
    apply Hin. reflexivity.
Defined.

(** C1, at a concrete input.  The device takes 8 seconds to answer.
    [turn_on], issued at clock 100, returns at clock 108 and arms the
    smoother with expiry 118.  A status call made at clock 115, that is 7
    seconds after [turn_on] returned and inside the window, has its request
    answered at clock 123, past the expiry: it reports the polled value
    [active = false] ([time0] is 0), not the commanded [true]. *)
Lemma window_is_tested_when_answered :
  result (issue450 TurnOn Sample.slow450 Sample.start) = inr tt
  /\ clock (world_after (issue450 TurnOn Sample.slow450 Sample.start)) =
       (100 + 8 + 0)%Q
  /\ transition
       (IsModel450 (self_after (issue450 TurnOn Sample.slow450
                                  Sample.start))) =
       (true, (100 + 8 + 0 + 10)%Q)
  /\ (clock Sample.at_115 <
        clock (world_after (issue450 TurnOn Sample.slow450 Sample.start))
        + 10)%Q
  /\ @polled (Sample.parser Sample.bodies) Sample.cpython
       (self_after (issue450 TurnOn Sample.slow450 Sample.start))
       Sample.at_115 "71XF" 0
  /\ result (@SteamistModel450.async_get_status
               (Sample.parser Sample.bodies) Sample.cpython
               (self_after (issue450 TurnOn Sample.slow450 Sample.start))
               Sample.at_115) =
       inr {| SteamistStatus.temp := PyInt 71;
              SteamistStatus.temp_units := PyStr "F";
              SteamistStatus.minutes_remain := PyInt 0;
              SteamistStatus.seconds_remain := PyInt 0;
              SteamistStatus.active := false |}
  /\ clock (world_after
              (@SteamistModel450.async_get_status
                 (Sample.parser Sample.bodies) Sample.cpython
                 (self_after (issue450 TurnOn Sample.slow450 Sample.start))
                 Sample.at_115)) = (115 + 8 + 0)%Q.
Proof.
  split; [reflexivity|]. split; [reflexivity|]. split; [reflexivity|].
  split; [reflexivity|]. split; [|split; reflexivity].
  answered Sample.cold (Sample.document "71XF" "0").
Qed.

(** ** C2 and C4: the temperature of a polled status *)

(** A string no pattern matches has no group. *)
Lemma temp_regex_match_none u s :
  (forall ds, ~ matches_temp u s ds) -> temp_regex_match u s = None.
Proof.
  intros Hno. destruct (temp_regex_match u s) as [ds|] eqn:Hm; [|done].
  apply temp_regex_match_spec in Hm. by destruct (Hno ds).
Qed.

(** C2, at a concrete input.  The device answers [temp0 = "--"], which
    matches neither pattern; the status call does not raise: it returns a
    status whose [temp] is [None] and whose [temp_units] is ["F"]. *)
Lemma unmatched_temp0_is_not_an_error :
  (forall ds, ~ matches_temp "F" "--" ds)
  /\ (forall ds, ~ matches_temp "C" "--" ds)
  /\ @polled (Sample.parser Sample.bodies) Sample.cpython
       (Sample.adapter450 Sample.garbled) Sample.start "--" 5
  /\ result (@SteamistModel450.async_get_status
               (Sample.parser Sample.bodies) Sample.cpython
               (Sample.adapter450 Sample.garbled) Sample.start) =
       inr {| SteamistStatus.temp := PyNone;
              SteamistStatus.temp_units := PyStr "F";
              SteamistStatus.minutes_remain := PyInt 5;
              SteamistStatus.seconds_remain := PyInt 0;
              SteamistStatus.active := true |}
  /\ (forall e,
        result (@SteamistModel450.async_get_status
                  (Sample.parser Sample.bodies) Sample.cpython
                  (Sample.adapter450 Sample.garbled) Sample.start) <>
          inl e).
Proof.
  split; [|split; [|split; [|split]]].
  - intros ds Hm%temp_regex_match_spec. discriminate Hm.
  - intros ds Hm%temp_regex_match_spec. discriminate Hm.
  - answered Sample.garbled (Sample.document "--" "5").
  - reflexivity.
  - intros e He. discriminate He.
Qed.

(** C2, amended.  When the device answers the status request with a
    [temp0] string that matches neither [([0-9]+)XF] nor [([0-9]+)XC] (and
    a readable [time0]), the status call returns a status whose [temp] is
    [None] and whose [temp_units] is ["F"]. *)
Theorem unmatched_temp0_yields_none `{xmltodict} `{python}
    (self : SteamistModel450.t) (w : World) (temp0 : string) (minutes : Z) :
  (forall ds, ~ matches_temp "F" temp0 ds) ->
  (forall ds, ~ matches_temp "C" temp0 ds) ->
  polled self w temp0 minutes ->
  exists status,
    result (SteamistModel450.async_get_status self w) = inr status
    /\ SteamistStatus.temp status = PyNone
    /\ SteamistStatus.temp_units status = PyStr "F".
Proof.
  intros Hf%temp_regex_match_none Hc%temp_regex_match_none Hpoll.
  destruct (async_get_status_polled _ _ _ _ Hpoll)
    as (temp & units & Htu & Hres).
  rewrite temp_and_units_regex in Htu.
  unfold TEMP_REGEX_F, TEMP_REGEX_C in Htu. rewrite Hf, Hc in Htu.
  injection Htu as <- <-.
  eexists. split; [exact Hres|]. done.
Qed.

Lemma unmatched_temp0_yields_none_witness :
  exists status,
    result (@SteamistModel450.async_get_status
        (Sample.parser Sample.bodies) Sample.cpython
              (Sample.adapter450 Sample.garbled) Sample.start) = inr status
    /\ SteamistStatus.temp status = PyNone
    /\ SteamistStatus.temp_units status = PyStr "F".
Proof.
  apply (@unmatched_temp0_yields_none
      (Sample.parser Sample.bodies) Sample.cpython
           (Sample.adapter450 Sample.garbled) Sample.start "--" 5%Z).
  - intros ds Hm%temp_regex_match_spec. discriminate Hm.
  - intros ds Hm%temp_regex_match_spec. discriminate Hm.
  - answered Sample.garbled (Sample.document "--" "5").
Defined.

(** C4, at a concrete input.  Under the interpreter's default limit of
    4300 digits, the device answers a [temp0] of 4301 nines followed by
    [XF].  The Fahrenheit pattern matches it with the 4301 nines as group,
    and [int] refuses the group: the status call raises [ValueError]
    instead of returning that integer. *)
Lemma endless_temp0_raises :
  matches_temp "F" (Sample.nines +:+ "XF") Sample.nines
  /\ @responds (Sample.parser Sample.bodies) Sample.cpython
       (Sample.adapter450 Sample.endless) Sample.start
       (Sample.nines +:+ "XF") 5
  /\ result (@SteamistModel450.async_get_status
               (Sample.parser Sample.bodies) Sample.cpython
               (Sample.adapter450 Sample.endless) Sample.start) =
       inl ValueError.
Proof.
  split; [|split].
  - split; [|split].
    + intros Hnil. vm_compute in Hnil. discriminate Hnil.
    + vm_compute. reflexivity.
    + by exists "".
  - exists Sample.endless, (Sample.document (Sample.nines +:+ "XF") "5").
    do 2 eexists. repeat split; vm_compute; reflexivity.
  - vm_compute. reflexivity.
Qed.

(** C4, amended.  Let the device answer the status request with [temp0]
    and a readable [time0].  When [([0-9]+)XF] matches [temp0] with a group
    [ds] that has no more digits than the interpreter allows [int] to read
    (4300 by default, any number when the limit is off), the status has
    [temp] equal to the integer [ds] denotes and [temp_units = "F"]; when
    [([0-9]+)XC] matches with such a group, it has that integer and
    [temp_units = "C"] (the two patterns never match the same string, so
    the second case needs no proviso).  With a longer group the status call
    raises [ValueError].  The Fahrenheit match is tested first: once it is
    present the Celsius match plays no part, and the Celsius match decides
    only when the Fahrenheit match is absent. *)
Theorem matched_temp0_yields_temperature `{xmltodict} `{python}
    (self : SteamistModel450.t) (w : World) (temp0 : string) (minutes : Z)
    (ds : string) :
  responds self w temp0 minutes ->
  (matches_temp "F" temp0 ds ->
   digit_limit_allows (N.of_nat (String.length ds)) = true ->
   exists status,
     result (SteamistModel450.async_get_status self w) = inr status
     /\ SteamistStatus.temp status =
          PyInt (decimal (list_ascii_of_string ds))
     /\ SteamistStatus.temp_units status = PyStr "F")
  /\ (matches_temp "C" temp0 ds ->
      digit_limit_allows (N.of_nat (String.length ds)) = true ->
      exists status,
        result (SteamistModel450.async_get_status self w) = inr status
        /\ SteamistStatus.temp status =
             PyInt (decimal (list_ascii_of_string ds))
        /\ SteamistStatus.temp_units status = PyStr "C")
  /\ (matches_temp "F" temp0 ds \/ matches_temp "C" temp0 ds ->
      digit_limit_allows (N.of_nat (String.length ds)) = false ->
      result (SteamistModel450.async_get_status self w) = inl ValueError)
  /\ (forall g groups_c,
        SteamistModel450.temp_and_units (Some g) groups_c =
          SteamistModel450.temp_and_units (Some g) None)
  /\ (forall g n,
        py_int (PyStr g) = inr n ->
        SteamistModel450.temp_and_units None (Some g) = inr (PyInt n, "C")).
Proof.
  intros Hresp.
  pose proof (temp_and_units_regex temp0) as Htu.
  set (chosen := SteamistModel450.temp_and_units _ _) in Htu.
  assert (Hexcl : forall g, TEMP_REGEX_C temp0 = Some g ->
                            TEMP_REGEX_F temp0 = None).
  { intros g Hc. destruct (TEMP_REGEX_F temp0) as [f|] eqn:Hf; [|done].
    destruct (temp_regex_exclusive _ _ _ Hf Hc). }
  assert (Hraises : chosen = inl ValueError ->
            result (SteamistModel450.async_get_status self w) =
              inl ValueError).
  { intros Hraise.
    destruct Hresp as (body & data & response & time0 &
                       Hget & Hparse & Hdoc & Htemp & _).
    unfold SteamistModel450.async_get_status.
    rewrite (bind_returns _ _ _ _ _ Hget), _get_self.
    unfold bind, lift, attr, monotonic, ret, raise; simpl.
    rewrite Hparse; simpl. rewrite Hdoc; simpl. rewrite Htemp; simpl.
    fold chosen. by rewrite Hraise. }
  split; [|split; [|split; [|split]]].
  - intros Hm%temp_regex_match_spec Hlim. fold TEMP_REGEX_F in Hm.
    rewrite Hm, Hlim in Htu.
    eexists. split; [by apply (async_get_status_responds _ _ temp0)|done].
  - intros Hm%temp_regex_match_spec Hlim. fold TEMP_REGEX_C in Hm.
    rewrite (Hexcl _ Hm), Hm, Hlim in Htu.
    eexists. split; [by apply (async_get_status_responds _ _ temp0)|done].
  - intros Hm Hlim. apply Hraises.
    destruct Hm as [Hm%temp_regex_match_spec|Hm%temp_regex_match_spec].
    + fold TEMP_REGEX_F in Hm. by rewrite Hm, Hlim in Htu.
    + fold TEMP_REGEX_C in Hm. by rewrite (Hexcl _ Hm), Hm, Hlim in Htu.
  - reflexivity.
  - intros g n Hn. unfold SteamistModel450.temp_and_units, ebind.
    by rewrite Hn.
Qed.

Lemma matched_temp0_yields_temperature_witness :
  exists status,
    result (@SteamistModel450.async_get_status (Sample.parser Sample.bodies)
              Sample.cpython (Sample.adapter450 Sample.running)
              Sample.start) = inr status
    /\ SteamistStatus.temp status = PyInt 40
    /\ SteamistStatus.temp_units status = PyStr "C".
Proof.
  destruct (@matched_temp0_yields_temperature (Sample.parser Sample.bodies)
              Sample.cpython (Sample.adapter450 Sample.running)
              Sample.start "40XC" 12%Z "40") as (_ & Hc & _).
  - exists Sample.running, (Sample.document "40XC" "12").
    do 2 eexists. repeat split; reflexivity.
  - apply Hc; [|reflexivity]. split; [discriminate|].
    split; [reflexivity|]. by exists "".
Defined.

(** ** C3: a scan that finds no device *)

(** C3, on the code.  When the scan of the discovery adapter's status call
    answers with no device, the call raises nothing: it returns [None]. *)
Theorem empty_scan_returns_none `{discovery30303} (self : Steamist.t)
    (w : World) :
  outcome (async_scan 5 (Steamist._host self) w) = inr [] ->
  result (SteamistModel550.async_get_status self w) = inr None
  /\ forall e, result (SteamistModel550.async_get_status self w) <> inl e.
Proof.
  intros Hscan.
  assert (Hres : result (SteamistModel550.async_get_status self w)
                 = inr None).
  { unfold SteamistModel550.async_get_status, bind, attr, await; simpl.
    by rewrite Hscan. }
  split; [exact Hres|]. intros e He. rewrite Hres in He. discriminate He.
Qed.

Lemma empty_scan_returns_none_witness :
  result (@SteamistModel550.async_get_status (Sample.discovery [])
            (Steamist.__init__ "192.168.1.55" DEFAULT_REQUEST_TIMEOUT)
            Sample.start) = inr None.
Proof.
  apply (@empty_scan_returns_none (Sample.discovery [])
           (Steamist.__init__ "192.168.1.55" DEFAULT_REQUEST_TIMEOUT)
           Sample.start).
  reflexivity.
Defined.

(** ** C5: a status from discovery data *)

(** C5.  When [additional_data] holds the five keys, the factory returns a
    status with [temp], [temp_units], [minutes_remain] and [seconds_remain]
    taken from [temperature], [temp_unit], [minutesleft] and [secondsleft],
    and with [active = (profile != 0)], which for an integer profile [p] is
    true exactly when [p] is not 0.  In particular the data
    [{temperature: 105, temp_unit: "F", minutesleft: 3, secondsleft: 45,
    profile: 1}] yield [{temp: 105, temp_units: "F", minutes_remain: 3,
    seconds_remain: 45, active: true}]. *)
Theorem create_from_device_30303_maps_fields (steamist : Device30303)
    (temperature temp_unit minutesleft secondsleft profile : pyobj) :
  additional_data steamist !! "temperature" = Some temperature ->
  additional_data steamist !! "temp_unit" = Some temp_unit ->
  additional_data steamist !! "minutesleft" = Some minutesleft ->
  additional_data steamist !! "secondsleft" = Some secondsleft ->
  additional_data steamist !! "profile" = Some profile ->
  SteamistStatus.create_from_device_30303 steamist =
    inr {| SteamistStatus.temp := temperature;
           SteamistStatus.temp_units := temp_unit;
           SteamistStatus.minutes_remain := minutesleft;
           SteamistStatus.seconds_remain := secondsleft;
           SteamistStatus.active := py_ne_zero profile |}
  /\ (forall p : Z, profile = PyInt p ->
        (py_ne_zero profile = true <-> p <> 0%Z))
  /\ SteamistStatus.create_from_device_30303
       {| additional_data :=
            <[ "temperature" := PyInt 105 ]>
              (<[ "temp_unit" := PyStr "F" ]>
                 (<[ "minutesleft" := PyInt 3 ]>
                    (<[ "secondsleft" := PyInt 45 ]>
                       {[ "profile" := PyInt 1 ]}))) |} =
       inr {| SteamistStatus.temp := PyInt 105;
              SteamistStatus.temp_units := PyStr "F";
              SteamistStatus.minutes_remain := PyInt 3;
              SteamistStatus.seconds_remain := PyInt 45;
              SteamistStatus.active := true |}.
Proof.
  intros Ht Hu Hm Hs Hp. split; [|split].
  - unfold SteamistStatus.create_from_device_30303, SteamistStatus.item,
      ebind, py_getitem.
    by rewrite Ht, Hu, Hm, Hs, Hp.
  - intros p ->. simpl. rewrite negb_true_iff. apply Z.eqb_neq.
  - reflexivity.
Qed.

Lemma create_from_device_30303_maps_fields_witness :
  SteamistStatus.create_from_device_30303
    {| additional_data :=
         <[ "temperature" := PyInt 40 ]>
           (<[ "temp_unit" := PyStr "C" ]>
              (<[ "minutesleft" := PyInt 0 ]>
                 (<[ "secondsleft" := PyInt 0 ]>
                    {[ "profile" := PyInt 0 ]}))) |} =
    inr {| SteamistStatus.temp := PyInt 40;
           SteamistStatus.temp_units := PyStr "C";
           SteamistStatus.minutes_remain := PyInt 0;
           SteamistStatus.seconds_remain := PyInt 0;
           SteamistStatus.active := false |}.
Proof.
  refine (proj1 (create_from_device_30303_maps_fields
                   {| additional_data :=
                        <[ "temperature" := PyInt 40 ]>
                          (<[ "temp_unit" := PyStr "C" ]>
                             (<[ "minutesleft" := PyInt 0 ]>
                                (<[ "secondsleft" := PyInt 0 ]>
                                   {[ "profile" := PyInt 0 ]}))) |}
                   (PyInt 40) (PyStr "C") (PyInt 0) (PyInt 0) (PyInt 0)
                   _ _ _ _ _)); reflexivity.
Defined.

(** ** C6: the factory *)

(** C6.  Given the model string of the 550, the factory returns a 550
    instance, and [model()] of what it returns is that string; given any
    other model string it returns a 450 instance built on the session the
    session factory makes.  The 450 constant is such a string as soon as
    the two constants differ. *)
Theorem create_steamist_from_selects `{discovery30303} (host model_ : string)
    (websession : session_factory) (session : ClientSession) :
  (model_ = MODEL_550 ->
   create_steamist_from host model_ websession =
     inr (IsModel550 (SteamistModel550.__init__ host
                        DEFAULT_REQUEST_TIMEOUT))
   /\ forall made, create_steamist_from host model_ websession = inr made ->
                   model made = inr MODEL_550)
  /\ (model_ <> MODEL_550 -> websession tt = inr session ->
      create_steamist_from host model_ websession =
        inr (IsModel450 (SteamistModel450.__init__ host session
                           DEFAULT_REQUEST_TIMEOUT)))
  /\ (MODEL_450 <> MODEL_550 -> websession tt = inr session ->
      create_steamist_from host MODEL_450 websession =
        inr (IsModel450 (SteamistModel450.__init__ host session
                           DEFAULT_REQUEST_TIMEOUT))).
Proof.
  unfold create_steamist_from, SteamistModel550.model, ebind.
  split; [|split].
  - intros ->. rewrite String.eqb_refl. split; [done|].
    by intros made [= <-].
  - intros Hne Hws. apply String.eqb_neq in Hne. by rewrite Hne, Hws.
  - intros Hne Hws. apply String.eqb_neq in Hne. by rewrite Hne, Hws.
Qed.

Lemma create_steamist_from_selects_witness :
  @create_steamist_from (Sample.discovery []) "192.168.1.40" "450"
    (fun _ => inr (Sample.device 0 Sample.cold)) =
    inr (IsModel450 (SteamistModel450.__init__ "192.168.1.40"
                       (Sample.device 0 Sample.cold)
                       DEFAULT_REQUEST_TIMEOUT))
  /\ @create_steamist_from (Sample.discovery []) "192.168.1.55" "550"
       (fun _ => inr (Sample.device 0 Sample.cold)) =
       inr (IsModel550 (Steamist.__init__ "192.168.1.55"
                          DEFAULT_REQUEST_TIMEOUT)).
Proof.
  destruct (@create_steamist_from_selects (Sample.discovery [])
              "192.168.1.40" "450"
              (fun _ => inr (Sample.device 0 Sample.cold))
              (Sample.device 0 Sample.cold))
    as (_ & Hother & _).
  destruct (@create_steamist_from_selects (Sample.discovery [])
              "192.168.1.55" "550"
              (fun _ => inr (Sample.device 0 Sample.cold))
              (Sample.device 0 Sample.cold))
    as (Hsame & _).
  split.
  - apply Hother; [discriminate|reflexivity].
  - apply Hsame. reflexivity.
Defined.

(** ** C7: the operations of the base class *)

(** C7, at a concrete input.  [turn_on] invoked on an instance of the base
    class raises nothing: it returns and arms the smoother. *)
Lemma base_turn_on_returns :
  result (async_turn_on_steam
            (IsSteamist (Steamist.__init__ "192.168.1.40"
                           DEFAULT_REQUEST_TIMEOUT))
            Sample.start) = inr tt
  /\ (forall msg,
        result (async_turn_on_steam
                  (IsSteamist (Steamist.__init__ "192.168.1.40"
                                 DEFAULT_REQUEST_TIMEOUT))
                  Sample.start) <> inl (NotImplementedError msg))
  /\ transition
       (self_after (async_turn_on_steam
                      (IsSteamist (Steamist.__init__ "192.168.1.40"
                                     DEFAULT_REQUEST_TIMEOUT))
                      Sample.start)) = (true, (100 + 10)%Q).
Proof. split; [reflexivity|]. split; [discriminate|reflexivity]. Qed.

(** C7, amended.  On an instance of the base class, [get_status] and
    [model] are placeholders: each raises [NotImplementedError], and
    [get_status] leaves the instance and the world as they were.
    [turn_on] and [turn_off] are not placeholders: they return and arm the
    smoother with the commanded state and an expiry 10 seconds after the
    clock reading. *)
Theorem base_placeholders `{discovery30303} `{xmltodict} `{python}
    (self : Steamist.t) (w : World) :
  async_get_status (IsSteamist self) w =
    {| result := inl (NotImplementedError "Sub class should implement");
       self_after := IsSteamist self; world_after := w |}
  /\ model (IsSteamist self) =
       inl (NotImplementedError "Must be overriden by subclass")
  /\ forall c,
       result (issue c (IsSteamist self) w) = inr tt
       /\ world_after (issue c (IsSteamist self) w) = w
       /\ transition (self_after (issue c (IsSteamist self) w)) =
            (state_of c, (clock w + 10)%Q).
Proof.
  split; [reflexivity|]. split; [reflexivity|]. by intros [].
Qed.

(** ** C9: the commands of the discovery adapter *)

(** C9.  On a 550 instance, [turn_on] and [turn_off] return, leave the
    world as it was (no network operation is logged and no collaborator is
    awaited), and change nothing of the instance but the smoother, which
    holds the commanded state and an expiry 10 seconds after the clock
    reading: [_host], [_timeout] and [_auth_invalid] are as before. *)
Theorem commands_550_only_arm (c : command) (self : Steamist.t) (w : World) :
  result (issue c (IsModel550 self) w) = inr tt
  /\ world_after (issue c (IsModel550 self) w) = w
  /\ traffic (world_after (issue c (IsModel550 self) w)) = traffic w
  /\ (exists self', self_after (issue c (IsModel550 self) w) = IsModel550 self'
        /\ Steamist._host self' = Steamist._host self
        /\ Steamist._timeout self' = Steamist._timeout self
        /\ Steamist._auth_invalid self' = Steamist._auth_invalid self
        /\ Steamist._transiton_state self' = state_of c
        /\ Steamist._transition_complete_time self' = (clock w + 10)%Q).
Proof.
  destruct c; simpl;
    (split; [reflexivity|]; split; [reflexivity|]; split; [reflexivity|];
     eexists; split; [reflexivity|]; by repeat split).
Qed.

(** ** C10: the commands of the HTTP/XML adapter *)

(** C10.  A command of the 450 leaves the world as its control request
    ([GET /leds.cgi] with [led = 6] for [turn_on], [led = 7] for
    [turn_off]) left it.  If the request raised, the command raises the
    same exception and the instance, hence the smoother, is as it was
    before the call.  If the request returned, the command returns and the
    smoother holds the commanded state and an expiry 10 seconds after the
    clock as the request left it: the smoother is armed after the
    request. *)
Theorem command_450_arms_after_request (c : command)
    (self : SteamistModel450.t) (w : World) :
  control c self w =
    SteamistModel450._get "/leds.cgi"
      (Some [("led", match c with TurnOn => 6 | TurnOff => 7 end)%Z]) self w
  /\ world_after (issue450 c self w) = world_after (control c self w)
  /\ match result (control c self w) with
     | inl e =>
         result (issue450 c self w) = inl e
         /\ self_after (issue450 c self w) = self
         /\ transition (IsModel450 (self_after (issue450 c self w))) =
              transition (IsModel450 self)
     | inr _ =>
         result (issue450 c self w) = inr tt
         /\ self_after (issue450 c self w) =
              SteamistModel450.set_super
                (armed (state_of c) (clock (world_after (control c self w)))
                   (SteamistModel450.super self)) self
         /\ transition (IsModel450 (self_after (issue450 c self w))) =
              (state_of c, (clock (world_after (control c self w)) + 10)%Q)
     end.
Proof.
  split; [by destruct c|].
  destruct (result (control c self w)) as [e|body] eqn:Hctl.
  - rewrite (issue450_raises _ _ _ _ Hctl). done.
  - rewrite (issue450_returns _ _ _ _ Hctl). done.
Qed.

(** ** C8: the most recent command alone sets the smoother *)

(** The control request does not look at the smoother. *)
Lemma control_ignores_transition c b t self w :
  result (control c
            (SteamistModel450.set_super
               (Steamist.set_transition_complete_time t
                  (Steamist.set_transiton_state b
                     (SteamistModel450.super self))) self) w) =
    result (control c self w)
  /\ world_after (control c
                    (SteamistModel450.set_super
                       (Steamist.set_transition_complete_time t
                          (Steamist.set_transiton_state b
                             (SteamistModel450.super self))) self) w) =
       world_after (control c self w).
Proof.
  unfold control, SteamistModel450._get, bind, attr, await; simpl.
  by destruct (outcome (request _ _ w)).
Qed.

(** Off the 450 a command makes no request and always returns. *)
Lemma issue_returns_without_request c self w :
  (forall s, self <> IsModel450 s) -> result (issue c self w) = inr tt.
Proof.
  intros Hne. destruct self as [s|s|s]; [by destruct c|by destruct c|].
  by destruct (Hne s).
Qed.

(** What a returning command leaves in the smoother. *)
Lemma issue_transition c self w :
  result (issue c self w) = inr tt ->
  transition (self_after (issue c self w)) =
    (state_of c, (clock (world_after (issue c self w)) + 10)%Q).
Proof.
  destruct self as [s|s|s].
  - by destruct c.
  - by destruct c.
  - intros Hres.
    assert (Hres' : result (issue450 c s w) = inr tt) by by destruct c.
    destruct (issue450_result _ _ _ Hres') as [body Hctl].
    assert (Heq : issue c (IsModel450 s) w =
                  invoke IsModel450 (issue450 c) s w) by by destruct c.
    rewrite Heq. unfold invoke.
    rewrite (issue450_returns _ _ _ _ Hctl). done.
Qed.

(** A command does the same to the smoother whatever the smoother held. *)
Lemma issue_forgets_transition c b t self w :
  result (issue c self w) = inr tt ->
  transition (self_after (issue c (with_transition b t self) w)) =
    transition (self_after (issue c self w)).
Proof.
  destruct self as [s|s|s].
  - by destruct c.
  - by destruct c.
  - intros Hres.
    assert (Hres' : result (issue450 c s w) = inr tt) by by destruct c.
    destruct (issue450_result _ _ _ Hres') as [body Hctl].
    destruct (control_ignores_transition c b t s w) as [Hr Hw].
    assert (Heq : forall s0, issue c (IsModel450 s0) w =
                             invoke IsModel450 (issue450 c) s0 w)
      by by destruct c.
    simpl. rewrite !Heq. unfold invoke.
    rewrite Hctl in Hr.
    rewrite (issue450_returns _ _ _ _ Hr), (issue450_returns _ _ _ _ Hctl).
    simpl. unfold transition; simpl. by rewrite Hw.
Qed.

Section Scripts.
Context `{discovery30303} `{xmltodict} `{python}.

Lemma run_script_app xs ys self w :
  run_script (xs ++ ys) self w =
    run_script ys (script_self xs self w) (script_world xs self w).
Proof.
  unfold script_self, script_world.
  revert self w. induction xs as [|x xs IH]; intros self w; [done|].
  assert (Hx : result (perform x self w) = inr tt).
  { by destruct x. }
  simpl. rewrite !(bind_returns _ _ _ _ _ Hx). apply IH.
Qed.

Lemma run_script_command c self w :
  self_after (run_script [Command c] self w) = self_after (issue c self w)
  /\ world_after (run_script [Command c] self w) =
       world_after (issue c self w).
Proof. done. Qed.

(** C8.  Let a caller drive one instance through any script of commands,
    polls and pauses, and then issue a command [c] that returns.  Then
    the smoother holds the state [c] commands and an expiry 10 seconds
    after the clock as [c] left it, and it holds exactly what [c] leaves
    when it is issued, in the same world, on the instance with any other
    smoother content [(b0, t0)]: nothing of the earlier commands
    remains. *)
Theorem last_command_alone_sets_transition (steps : list step)
    (c : command) (self : instance) (w : World) (b0 : bool) (t0 : Q) :
  result (issue c (script_self steps self w) (script_world steps self w))
    = inr tt ->
  transition (script_self (steps ++ [Command c]) self w) =
    (state_of c,
     (clock (script_world (steps ++ [Command c]) self w) + 10)%Q)
  /\ transition (script_self (steps ++ [Command c]) self w) =
       transition
         (self_after (issue c (with_transition b0 t0
                                 (script_self steps self w))
                        (script_world steps self w))).
Proof.
  intros Hres.
  assert (Hs : script_self (steps ++ [Command c]) self w =
               self_after (issue c (script_self steps self w)
                             (script_world steps self w))).
  { unfold script_self at 1. rewrite run_script_app.
    apply run_script_command. }
  assert (Hw : script_world (steps ++ [Command c]) self w =
               world_after (issue c (script_self steps self w)
                              (script_world steps self w))).
  { unfold script_world at 1. rewrite run_script_app.
    apply run_script_command. }
  rewrite Hs, Hw. split.
  - by apply issue_transition.
  - symmetry. by apply issue_forgets_transition.
Qed.
End Scripts.


Lemma last_command_alone_sets_transition_witness :
  transition
    (@script_self (Sample.discovery [])
        (Sample.parser Sample.bodies) Sample.cpython
       ([Command TurnOn; Sleep 2; Poll; Command TurnOn] ++ [Command TurnOff])
       (IsModel450 (Sample.adapter450 Sample.running)) Sample.start) =
    (false,
     (clock (@script_world (Sample.discovery [])
               (Sample.parser Sample.bodies) Sample.cpython
               ([Command TurnOn; Sleep 2; Poll; Command TurnOn]
                  ++ [Command TurnOff])
               (IsModel450 (Sample.adapter450 Sample.running))
               Sample.start) + 10)%Q).
Proof.
  refine (proj1 (@last_command_alone_sets_transition
                   (Sample.discovery [])
                       (Sample.parser Sample.bodies) Sample.cpython
                   [Command TurnOn; Sleep 2; Poll; Command TurnOn] TurnOff
                   (IsModel450 (Sample.adapter450 Sample.running))
                   Sample.start true 0 _)).
  reflexivity.
Defined.


(** * Further properties of the module *)

(** ** One request per call *)

Lemma _get_request endpoint params self w :
  traffic (world_after (SteamistModel450._get endpoint params self w)) =
    HttpExchange (request_of self endpoint params) :: traffic w.
Proof. apply _get_traffic. Qed.

(** X1.  A status call of the 450 sends exactly one request, whatever comes
    of it: [GET http://{host}/status.xml] with the timeout of the instance
    and no parameters; and it leaves the instance as it was. *)
Theorem status_450_sends_one_request `{xmltodict} `{python}
    (self : SteamistModel450.t) (w : World) :
  traffic (world_after (SteamistModel450.async_get_status self w)) =
    HttpExchange
      {| method := "GET";
         url := "http://" +:+ Steamist._host (SteamistModel450.super self)
                  +:+ "/status.xml";
         timeout := Steamist._timeout (SteamistModel450.super self);
         params := None |} :: traffic w
  /\ self_after (SteamistModel450.async_get_status self w) = self.
Proof.
  rewrite async_get_status_world, async_get_status_self.
  split; [apply _get_request | reflexivity].
Qed.

(** X2.  [async_set_led id] sends exactly one request, [GET
    http://{host}/leds.cgi] with the parameter [led = id] and the timeout of
    the instance; it raises what the request raises and returns [None]
    otherwise, and in both cases leaves the instance, the smoother
    included, as it was: setting a LED directly does not arm the
    smoother. *)
Theorem async_set_led_only_requests (id : Z) (self : SteamistModel450.t)
    (w : World) :
  traffic (world_after (SteamistModel450.async_set_led id self w)) =
    HttpExchange
      {| method := "GET";
         url := "http://" +:+ Steamist._host (SteamistModel450.super self)
                  +:+ "/leds.cgi";
         timeout := Steamist._timeout (SteamistModel450.super self);
         params := Some [("led", id)] |} :: traffic w
  /\ self_after (SteamistModel450.async_set_led id self w) = self
  /\ result (SteamistModel450.async_set_led id self w) =
       match result (SteamistModel450._get SET_ENDPOINT
                       (Some [("led", id)]) self w) with
       | inl e => inl e
       | inr _ => inr tt
       end.
Proof.
  pose proof (_get_self SET_ENDPOINT (Some [("led", id)]) self w) as Hself.
  pose proof (_get_request SET_ENDPOINT (Some [("led", id)]) self w) as Htr.
  unfold SteamistModel450.async_set_led, bind.
  destruct (SteamistModel450._get SET_ENDPOINT (Some [("led", id)]) self w)
    as [[e|body] self' w']; simpl in *; by subst.
Qed.

(** ** The status call of the 550 *)

(** X3.  A status call of the 550 performs exactly one scan, with timeout 5
    and the host of the instance as address, whatever the scan answers; and
    it leaves the instance as it was. *)
Theorem status_550_scans_once `{discovery30303} (self : Steamist.t)
    (w : World) :
  traffic (world_after (SteamistModel550.async_get_status self w)) =
    Scan30303 5 (Steamist._host self) :: traffic w
  /\ clock (world_after (SteamistModel550.async_get_status self w)) =
       (clock w + elapsed (async_scan 5 (Steamist._host self) w))%Q
  /\ self_after (SteamistModel550.async_get_status self w) = self.
Proof.
  unfold SteamistModel550.async_get_status, bind, attr, await; simpl.
  destruct (outcome (async_scan 5 (Steamist._host self) w))
    as [e|[|device rest]]; simpl; [done|done|].
  by destruct (SteamistStatus.create_from_device_30303 device).
Qed.

(** X4.  The status call of the 550 never reads the smoother: the instance
    with any other pending state and expiry gets the same result and leaves
    the same world.  In particular a [turn_on] or [turn_off] issued just
    before changes nothing of what the status call reports. *)
Theorem status_550_ignores_transition `{discovery30303} (self : Steamist.t)
    (w : World) (b : bool) (t : Q) (c : command) (w0 : World) :
  result (SteamistModel550.async_get_status
            (Steamist.set_transition_complete_time t
               (Steamist.set_transiton_state b self)) w) =
    result (SteamistModel550.async_get_status self w)
  /\ world_after (SteamistModel550.async_get_status
                    (Steamist.set_transition_complete_time t
                       (Steamist.set_transiton_state b self)) w) =
       world_after (SteamistModel550.async_get_status self w)
  /\ result (SteamistModel550.async_get_status
               (base (self_after (issue c (IsModel550 self) w0))) w) =
       result (SteamistModel550.async_get_status self w).
Proof.
  assert (Hany : forall s', Steamist._host s' = Steamist._host self ->
            SteamistModel550.async_get_status s' w =
              {| result := result (SteamistModel550.async_get_status self w);
                 self_after := s';
                 world_after :=
                   world_after (SteamistModel550.async_get_status self w) |}).
  { intros s' Hhost.
    unfold SteamistModel550.async_get_status, bind, attr, await; simpl.
    rewrite Hhost.
    destruct (outcome (async_scan 5 (Steamist._host self) w))
      as [e|[|device rest]]; simpl; [done|done|].
    by destruct (SteamistStatus.create_from_device_30303 device). }
  split; [|split].
  - by rewrite Hany.
  - by rewrite Hany.
  - destruct c; simpl; by rewrite Hany.
Qed.

(** X5.  When the scan finds devices, the status call of the 550 uses the
    first one only: it returns the status made from that device, or raises
    what making it raises, whatever the other devices are; it never returns
    [None] then. *)
Theorem status_550_uses_first_device `{discovery30303} (self : Steamist.t)
    (w : World) (device : Device30303) (others : list Device30303) :
  outcome (async_scan 5 (Steamist._host self) w) = inr (device :: others) ->
  result (SteamistModel550.async_get_status self w) =
    match SteamistStatus.create_from_device_30303 device with
    | inr status => inr (Some status)
    | inl e => inl e
    end
  /\ result (SteamistModel550.async_get_status self w) <> inr None.
Proof.
  intros Hscan.
  assert (Hres : result (SteamistModel550.async_get_status self w) =
                 match SteamistStatus.create_from_device_30303 device with
                 | inr status => inr (Some status)
                 | inl e => inl e
                 end).
  { unfold SteamistModel550.async_get_status, bind, attr, await; simpl.
    rewrite Hscan; simpl.
    by destruct (SteamistStatus.create_from_device_30303 device). }
  split; [exact Hres|]. rewrite Hres.
  by destruct (SteamistStatus.create_from_device_30303 device).
Qed.

Lemma status_550_uses_first_device_witness :
  result (@SteamistModel550.async_get_status
            (Sample.discovery
               [ {| additional_data := {[ "temperature" := PyInt 105 ]} |};
                 {| additional_data := ∅ |} ])
            (Steamist.__init__ "192.168.1.55" DEFAULT_REQUEST_TIMEOUT)
            Sample.start) = inl (KeyError "temp_unit").
Proof.
  refine (proj1 (@status_550_uses_first_device
                   (Sample.discovery
                      [ {| additional_data :=
                             {[ "temperature" := PyInt 105 ]} |};
                        {| additional_data := ∅ |} ])
                   (Steamist.__init__ "192.168.1.55"
                      DEFAULT_REQUEST_TIMEOUT)
                   Sample.start
                   {| additional_data := {[ "temperature" := PyInt 105 ]} |}
                   [ {| additional_data := ∅ |} ] _)).
  reflexivity.
Defined.

(** ** Discovery data with missing keys *)

(** X6.  [create_from_device_30303] returns a status exactly when
    [additional_data] holds all five keys; otherwise it raises [KeyError]
    for the first key it lacks, in the order temperature, temp_unit,
    minutesleft, secondsleft, profile.  Keys beyond the five are
    ignored. *)
Theorem create_from_device_30303_first_missing (steamist : Device30303) :
  match first_missing (additional_data steamist) with
  | Some k =>
      SteamistStatus.create_from_device_30303 steamist = inl (KeyError k)
  | None =>
      exists status,
        SteamistStatus.create_from_device_30303 steamist = inr status
  end.
Proof.
  unfold first_missing, required_keys, lacks,
    SteamistStatus.create_from_device_30303, SteamistStatus.item, ebind,
    py_getitem; simpl.
  destruct (additional_data steamist !! "temperature"); [|done].
  destruct (additional_data steamist !! "temp_unit"); [|done].
  destruct (additional_data steamist !! "minutesleft"); [|done].
  destruct (additional_data steamist !! "secondsleft"); [|done].
  destruct (additional_data steamist !! "profile"); [|done].
  by eexists.
Qed.

(** ** When the status call of the 450 returns, and what it raises *)

(** The steps of the status call that follow the answered request. *)
Lemma async_get_status_after_get `{xmltodict} `{python} self w body :
  result (SteamistModel450._get STATUS_ENDPOINT None self w) = inr body ->
  result (SteamistModel450.async_get_status self w) =
    (data <-? xmltodict_parse body ;;
     response <-? py_getitem data "response" ;;
     temp0 <-? py_getitem response "temp0" ;;
     groups_f <-? re_match TEMP_REGEX_F temp0 ;;
     groups_c <-? re_match TEMP_REGEX_C temp0 ;;
     tu <-? SteamistModel450.temp_and_units groups_f groups_c ;;
     time0 <-? py_getitem response "time0" ;;
     minutes <-? py_int time0 ;;
     inr {| SteamistStatus.temp := fst tu;
            SteamistStatus.temp_units := PyStr (snd tu);
            SteamistStatus.minutes_remain := PyInt minutes;
            SteamistStatus.seconds_remain := PyInt 0;
            SteamistStatus.active :=
              if Qgtb (Steamist._transition_complete_time
                         (SteamistModel450.super self))
                      (reading self w)
              then Steamist._transiton_state (SteamistModel450.super self)
              else (0 <? minutes)%Z |}).
Proof.
  intros Hget. unfold SteamistModel450.async_get_status, reading.
  rewrite (bind_returns _ _ _ _ _ Hget), _get_self.
  set (w' := world_after _).
  unfold bind, lift, attr, monotonic, ret, raise, ebind; simpl.
  destruct (xmltodict_parse body) as [e|data]; simpl; [done|].
  destruct (py_getitem data "response") as [e|response]; simpl; [done|].
  destruct (py_getitem response "temp0") as [e|temp0]; simpl; [done|].
  destruct (re_match TEMP_REGEX_F temp0) as [e|groups_f]; simpl; [done|].
  destruct (re_match TEMP_REGEX_C temp0) as [e|groups_c]; simpl; [done|].
  destruct (SteamistModel450.temp_and_units groups_f groups_c)
    as [e|[temp units]]; simpl; [done|].
  destruct (py_getitem response "time0") as [e|time0]; simpl; [done|].
  destruct (py_int time0) as [e|minutes]; simpl; [done|].
  by destruct (Qgtb _ _).
Qed.

Lemma decimal_nonneg l acc :
  forallb is_digit l = true -> (0 <= acc)%Z ->
  (0 <= fold_left (fun a c => a * 10 + digit_value c) l acc)%Z.
Proof.
  revert acc. induction l as [|c l IH]; intros acc Hall Hacc; [done|].
  simpl in *. apply andb_true_iff in Hall as [Hc Hall].
  apply IH; [done|]. unfold is_digit, digit_value in *.
  apply andb_true_iff in Hc as [Hlo _]. apply N.leb_le in Hlo. lia.
Qed.

(** X7.  The status call of the 450 returns a status exactly when its
    request is answered with a body that parses to a document whose
    [response] element holds a [time0] that [int] accepts and a string
    [temp0] whose temperature [int] accepts (the group of digits of the
    pattern that matches, if one does, is within the interpreter's digit
    limit); in every other case it raises.  A [temp0] no pattern matches
    does not keep the call from returning. *)
Theorem status_450_returns_iff_polled `{xmltodict} `{python}
    (self : SteamistModel450.t) (w : World) :
  (exists status,
     result (SteamistModel450.async_get_status self w) = inr status)
  <-> (exists temp0 minutes, polled self w temp0 minutes).
Proof.
  split.
  - intros [status Hres].
    destruct (result (SteamistModel450._get STATUS_ENDPOINT None self w))
      as [e|body] eqn:Hget.
    { unfold SteamistModel450.async_get_status in Hres.
      rewrite (bind_raises _ _ _ _ _ Hget) in Hres. done. }
    rewrite (async_get_status_after_get _ _ _ Hget) in Hres.
    unfold ebind in Hres.
    destruct (xmltodict_parse body) as [e|data] eqn:Hparse; [done|].
    destruct (py_getitem data "response") as [e|response] eqn:Hresp;
      [done|].
    destruct (py_getitem response "temp0") as [e|temp0] eqn:Htemp; [done|].
    destruct temp0 as [| | |s| |]; try done. simpl in Hres.
    destruct (SteamistModel450.temp_and_units _ _) as [e|tu] eqn:Htu;
      [done|].
    destruct (py_getitem response "time0") as [e|time0] eqn:Htime; [done|].
    destruct (py_int time0) as [e|minutes] eqn:Hint; [done|].
    exists s, minutes. split.
    + by exists body, data, response, time0.
    + by apply (temp_and_units_returns _ tu).
  - intros (temp0 & minutes & Hpoll).
    destruct (async_get_status_polled _ _ _ _ Hpoll)
      as (temp & units & _ & Hres).
    eexists. exact Hres.
Qed.

(** X8.  The status call of the 450 passes on what its collaborators
    raise: if the request (or reading its body) raises, the call raises the
    same exception and leaves the instance as it was and the world as the
    request left it; if the request is answered and [xmltodict.parse]
    raises, the call raises the same exception.  The smoother, armed or
    not, hides none of these. *)
Theorem status_450_passes_on_errors `{xmltodict} `{python}
    (self : SteamistModel450.t) (w : World) :
  match result (SteamistModel450._get STATUS_ENDPOINT None self w) with
  | inl e =>
      SteamistModel450.async_get_status self w =
        {| result := inl e; self_after := self;
           world_after :=
             world_after (SteamistModel450._get STATUS_ENDPOINT None
                            self w) |}
  | inr body =>
      forall e, xmltodict_parse body = inl e ->
                result (SteamistModel450.async_get_status self w) = inl e
  end.
Proof.
  destruct (result (SteamistModel450._get STATUS_ENDPOINT None self w))
    as [e|body] eqn:Hget.
  - unfold SteamistModel450.async_get_status.
    rewrite (bind_raises _ _ _ _ _ Hget), _get_self. done.
  - intros e Hparse.
    rewrite (async_get_status_after_get _ _ _ Hget).
    unfold ebind. by rewrite Hparse.
Qed.

(** X9.  What the status call of the 450 raises on an answered request
    whose document lacks a field or holds a wrong one.  With a parsed
    document [d]: no [response] key is [KeyError: response]; a [response]
    that is not a dict ([None] for an empty element, a string for a text
    element) is a [TypeError]; a [response] dict without [temp0] is
    [KeyError: temp0]; an empty [temp0] element ([None]) is a [TypeError].
    With a string [temp0] whose group of digits [int] refuses for its
    length the call raises [ValueError], whatever [time0] is; with any
    other string [temp0], a missing [time0] is [KeyError: time0], an empty
    [time0] element is a [TypeError] and a [time0] text that [int] rejects
    is a [ValueError]. *)
Theorem status_450_malformed_document `{xmltodict} `{python}
    (self : SteamistModel450.t) (w : World) (body : string)
    (d : gmap string pyobj) :
  result (SteamistModel450._get STATUS_ENDPOINT None self w) = inr body ->
  xmltodict_parse body = inr (PyDict d) ->
  (d !! "response" = None ->
   result (SteamistModel450.async_get_status self w) =
     inl (KeyError "response"))
  /\ (d !! "response" = Some PyNone ->
      result (SteamistModel450.async_get_status self w) = inl TypeError)
  /\ (forall s, d !! "response" = Some (PyStr s) ->
      result (SteamistModel450.async_get_status self w) = inl TypeError)
  /\ (forall r, d !! "response" = Some (PyDict r) ->
      (r !! "temp0" = None ->
       result (SteamistModel450.async_get_status self w) =
         inl (KeyError "temp0"))
      /\ (r !! "temp0" = Some PyNone ->
          result (SteamistModel450.async_get_status self w) = inl TypeError)
      /\ (forall temp0, r !! "temp0" = Some (PyStr temp0) ->
          (temp0_readable temp0 = false ->
           result (SteamistModel450.async_get_status self w) =
             inl ValueError)
          /\ (temp0_readable temp0 = true ->
              (r !! "time0" = None ->
               result (SteamistModel450.async_get_status self w) =
                 inl (KeyError "time0"))
              /\ (r !! "time0" = Some PyNone ->
                  result (SteamistModel450.async_get_status self w) =
                    inl TypeError)
              /\ (forall time0, r !! "time0" = Some (PyStr time0) ->
                  int_of_str time0 = None ->
                  result (SteamistModel450.async_get_status self w) =
                    inl ValueError)))).
Proof.
  intros Hget Hparse.
  rewrite (async_get_status_after_get _ _ _ Hget).
  unfold ebind. rewrite Hparse. simpl.
  split; [by intros ->|]. split; [by intros ->|].
  split; [by intros s ->|]. intros r ->. simpl.
  split; [by intros ->|]. split; [by intros ->|].
  intros temp0 ->. simpl. split.
  - intros Hread.
    destruct (SteamistModel450.temp_and_units (TEMP_REGEX_F temp0)
                (TEMP_REGEX_C temp0)) as [e|tu] eqn:Htu.
    + rewrite temp_and_units_regex in Htu.
      destruct (TEMP_REGEX_F temp0) as [g|].
      { destruct (digit_limit_allows _); [done|]. by injection Htu as <-. }
      destruct (TEMP_REGEX_C temp0) as [g|]; [|done].
      destruct (digit_limit_allows _); [done|]. by injection Htu as <-.
    + apply temp_and_units_returns in Htu. congruence.
  - intros Hread. rewrite (temp_and_units_readable _ Hread).
    split; [by intros ->|]. split; [by intros ->|].
    intros time0 -> Hint. simpl. by rewrite Hint.
Qed.

Lemma status_450_malformed_document_witness :
  result (@SteamistModel450.async_get_status
            (Sample.parser
               [(Sample.cold,
                 PyDict {[ "response" :=
                             PyDict (<[ "temp0" := PyStr "71XF" ]>
                                       {[ "time0" := PyStr "soon" ]}) ]})])
            Sample.cpython (Sample.adapter450 Sample.cold) Sample.start) =
    inl ValueError.
Proof.
  destruct (@status_450_malformed_document
              (Sample.parser
                 [(Sample.cold,
                   PyDict {[ "response" :=
                               PyDict (<[ "temp0" := PyStr "71XF" ]>
                                         {[ "time0" := PyStr "soon" ]}) ]})])
              Sample.cpython (Sample.adapter450 Sample.cold) Sample.start
              Sample.cold
              {[ "response" :=
                   PyDict (<[ "temp0" := PyStr "71XF" ]>
                             {[ "time0" := PyStr "soon" ]}) ]}
              eq_refl eq_refl) as (_ & _ & _ & Hdict).
  destruct (Hdict _ eq_refl) as (_ & _ & Htemp).
  destruct (Htemp "71XF" eq_refl) as (_ & Hreadable).
  destruct (Hreadable eq_refl) as (_ & _ & Htime).
  apply (Htime "soon"); reflexivity.
Defined.

(** ** The statuses the 450 returns *)

(** X10.  Every status the 450 returns has [seconds_remain = 0], an integer
    [minutes_remain], and either no temperature ([temp = None]) with
    [temp_units = "F"], or a non-negative integer temperature with
    [temp_units] one of ["F"] and ["C"]; its [active] is the pending state of
    the smoother or [minutes_remain > 0]. *)
Theorem status_450_shape `{xmltodict} `{python} (self : SteamistModel450.t)
    (w : World) (status : SteamistStatus.t) :
  result (SteamistModel450.async_get_status self w) = inr status ->
  SteamistStatus.seconds_remain status = PyInt 0
  /\ (exists m,
        SteamistStatus.minutes_remain status = PyInt m
        /\ (SteamistStatus.active status =
              Steamist._transiton_state (SteamistModel450.super self)
            \/ SteamistStatus.active status = (0 <? m)%Z))
  /\ ((SteamistStatus.temp status = PyNone
       /\ SteamistStatus.temp_units status = PyStr "F")
      \/ (exists n,
            SteamistStatus.temp status = PyInt n /\ (0 <= n)%Z
            /\ (SteamistStatus.temp_units status = PyStr "F"
                \/ SteamistStatus.temp_units status = PyStr "C"))).
Proof.
  intros Hres.
  destruct (result (SteamistModel450._get STATUS_ENDPOINT None self w))
    as [e|body] eqn:Hget.
  { unfold SteamistModel450.async_get_status in Hres.
    rewrite (bind_raises _ _ _ _ _ Hget) in Hres. done. }
  rewrite (async_get_status_after_get _ _ _ Hget) in Hres.
  unfold ebind in Hres.
  destruct (xmltodict_parse body) as [e|data]; [done|].
  destruct (py_getitem data "response") as [e|response]; [done|].
  destruct (py_getitem response "temp0") as [e|temp0]; [done|].
  destruct temp0 as [| | |s| |]; try done. simpl in Hres.
  destruct (SteamistModel450.temp_and_units (TEMP_REGEX_F s)
              (TEMP_REGEX_C s)) as [e|tu] eqn:Htu; [done|].
  pose proof (temp_and_units_returns _ _ Htu) as Hread.
  rewrite (temp_and_units_readable _ Hread) in Htu.
  injection Htu as <-.
  destruct (py_getitem response "time0") as [e|time0]; [done|].
  destruct (py_int time0) as [e|minutes]; [done|].
  injection Hres as <-. simpl.
  split; [done|]. split.
  { exists minutes. split; [done|]. destruct (Qgtb _ _); [by left|by right]. }
  assert (Hgroup : forall u g, temp_regex_match u s = Some g ->
            (0 <= decimal (list_ascii_of_string g))%Z).
  { intros u g (_ & Hds & _)%temp_regex_match_spec.
    by apply decimal_nonneg. }
  destruct (TEMP_REGEX_F s) as [g|] eqn:Hf.
  - right. eexists. split; [done|]. split; [by eapply Hgroup|by left].
  - destruct (TEMP_REGEX_C s) as [g|] eqn:Hc.
    + right. eexists. split; [done|]. split; [by eapply Hgroup|by right].
    + by left.
Qed.

Lemma status_450_shape_witness :
  result (@SteamistModel450.async_get_status
      (Sample.parser Sample.bodies) Sample.cpython
            (Sample.adapter450 Sample.running) Sample.start) =
    inr {| SteamistStatus.temp := PyInt 40;
           SteamistStatus.temp_units := PyStr "C";
           SteamistStatus.minutes_remain := PyInt 12;
           SteamistStatus.seconds_remain := PyInt 0;
           SteamistStatus.active := true |}
  /\ exists n, PyInt 40 = PyInt n /\ (0 <= n)%Z
                /\ (PyStr "C" = PyStr "F" \/ PyStr "C" = PyStr "C").
Proof.
  split; [reflexivity|].
  destruct (@status_450_shape (Sample.parser Sample.bodies) Sample.cpython
              (Sample.adapter450 Sample.running) Sample.start
              {| SteamistStatus.temp := PyInt 40;
                 SteamistStatus.temp_units := PyStr "C";
                 SteamistStatus.minutes_remain := PyInt 12;
                 SteamistStatus.seconds_remain := PyInt 0;
                 SteamistStatus.active := true |} eq_refl)
    as (_ & _ & [[Hnone _]|Hint]).
  - discriminate Hnone.
  - exact Hint.
Defined.

(** X11.  An instance of the 450 on which no command has been issued
    reports the polled value: as long as the clock reads -1200 or more
    (the initial expiry), an answered status call returns [active =
    (minutes_remain > 0)]. *)
Theorem fresh_450_reports_polled `{xmltodict} `{python} (host : string)
    (websession : ClientSession) (timeout_ : Z) (w : World)
    (temp0 : string) (minutes : Z) :
  polled (SteamistModel450.__init__ host websession timeout_) w temp0
    minutes ->
  (-1200 <= clock (world_after
                     (SteamistModel450.async_get_status
                        (SteamistModel450.__init__ host websession timeout_)
                        w)))%Q ->
  exists status,
    result (SteamistModel450.async_get_status
              (SteamistModel450.__init__ host websession timeout_) w) =
      inr status
    /\ SteamistStatus.active status = (0 <? minutes)%Z.
Proof.
  intros Hpoll Hclock.
  destruct (async_get_status_polled _ _ _ _ Hpoll)
    as (temp & units & _ & Hres).
  rewrite async_get_status_world in Hclock.
  eexists. split; [exact Hres|]. simpl.
  fold (reading (SteamistModel450.__init__ host websession timeout_) w)
    in Hclock.
  apply Qgtb_false in Hclock. unfold NEVER_TIME. by rewrite Hclock.
Qed.

Lemma fresh_450_reports_polled_witness :
  exists status,
    result (@SteamistModel450.async_get_status
        (Sample.parser Sample.bodies) Sample.cpython
              (SteamistModel450.__init__ "192.168.1.40"
                 (Sample.device (1 # 2) Sample.running) 10)
              Sample.start) = inr status
    /\ SteamistStatus.active status = true.
Proof.
  apply (@fresh_450_reports_polled (Sample.parser Sample.bodies) Sample.cpython
           "192.168.1.40" (Sample.device (1 # 2) Sample.running) 10%Z
           Sample.start "40XC" 12%Z).
  - answered Sample.running (Sample.document "40XC" "12").
  - discriminate.
Defined.

(** X12.  A [temp0] that does not start with a digit, such as the empty
    string, ["-5XC"] or [" 72XF"], yields no temperature: the answered
    status call returns [temp = None] and [temp_units = "F"]. *)
Theorem temp0_without_leading_digit `{xmltodict} `{python}
    (self : SteamistModel450.t) (w : World) (temp0 : string) (minutes : Z) :
  match temp0 with
  | String c _ => is_digit c = false
  | EmptyString => True
  end ->
  polled self w temp0 minutes ->
  exists status,
    result (SteamistModel450.async_get_status self w) = inr status
    /\ SteamistStatus.temp status = PyNone
    /\ SteamistStatus.temp_units status = PyStr "F".
Proof.
  intros Hhead Hpoll.
  destruct (async_get_status_polled _ _ _ _ Hpoll)
    as (temp & units & Htu & Hres).
  rewrite temp_and_units_regex in Htu.
  assert (Hno : forall u, temp_regex_match u temp0 = None).
  { intros u. unfold temp_regex_match.
    destruct temp0 as [|c rest]; [done|]. simpl. by rewrite Hhead. }
  unfold TEMP_REGEX_F, TEMP_REGEX_C in Htu. rewrite !Hno in Htu.
  injection Htu as <- <-. eexists. split; [exact Hres|]. done.
Qed.

Lemma temp0_without_leading_digit_witness :
  exists status,
    result (@SteamistModel450.async_get_status
              (Sample.parser [(Sample.cold, Sample.document "-5XC" "0")])
              Sample.cpython
              (Sample.adapter450 Sample.cold) Sample.start) = inr status
    /\ SteamistStatus.temp status = PyNone
    /\ SteamistStatus.temp_units status = PyStr "F".
Proof.
  apply (@temp0_without_leading_digit
           (Sample.parser [(Sample.cold, Sample.document "-5XC" "0")])
              Sample.cpython
           (Sample.adapter450 Sample.cold) Sample.start "-5XC" 0%Z).
  - reflexivity.
  - answered Sample.cold (Sample.document "-5XC" "0").
Defined.

(** X13.  No string is matched by both temperature patterns, so the order
    in which the status call tests the two matches cannot change a status;
    and the group a pattern captures is a non-empty run of digits that the
    string starts with. *)
Theorem temperature_patterns_exclusive (s : string) :
  (TEMP_REGEX_F s = None \/ TEMP_REGEX_C s = None)
  /\ forall u ds,
       temp_regex_match u s = Some ds ->
       ds <> "" /\ all_digits ds = true /\ exists rest, s = ds +:+ rest.
Proof.
  split.
  - destruct (TEMP_REGEX_F s) as [f|] eqn:Hf; [|by left].
    destruct (TEMP_REGEX_C s) as [c|] eqn:Hc; [|by right].
    destruct (temp_regex_exclusive _ _ _ Hf Hc).
  - intros u ds (Hne & Hds & rest & ->)%temp_regex_match_spec.
    split; [done|]. split; [done|]. by eexists.
Qed.

(** ** What a caller's script keeps *)

Lemma status_550_self `{discovery30303} self w :
  self_after (SteamistModel550.async_get_status self w) = self.
Proof.
  unfold SteamistModel550.async_get_status, bind, attr, await; simpl.
  destruct (outcome (async_scan 5 (Steamist._host self) w))
    as [e|[|device rest]]; simpl; [done|done|].
  by destruct (SteamistStatus.create_from_device_30303 device).
Qed.

Lemma status_550_traffic `{discovery30303} self w :
  traffic (world_after (SteamistModel550.async_get_status self w)) =
    Scan30303 5 (Steamist._host self) :: traffic w.
Proof.
  unfold SteamistModel550.async_get_status, bind, attr, await; simpl.
  destruct (outcome (async_scan 5 (Steamist._host self) w))
    as [e|[|device rest]]; simpl; [done|done|].
  by destruct (SteamistStatus.create_from_device_30303 device).
Qed.

Lemma issue_on_450 c s w :
  issue c (IsModel450 s) w = invoke IsModel450 (issue450 c) s w.
Proof. by destruct c. Qed.

Lemma issue450_self c self w b t :
  with_transition b t (IsModel450 (self_after (issue450 c self w))) =
    with_transition b t (IsModel450 self).
Proof.
  destruct (result (control c self w)) as [e|body] eqn:Hctl.
  - by rewrite (issue450_raises _ _ _ _ Hctl).
  - by rewrite (issue450_returns _ _ _ _ Hctl).
Qed.

Lemma issue450_traffic c self w :
  traffic (world_after (issue450 c self w)) =
    HttpExchange (request_of self SET_ENDPOINT (Some [("led", led_of c)]))
      :: traffic w.
Proof.
  assert (Hw : world_after (issue450 c self w) =
               world_after (control c self w)).
  { destruct (result (control c self w)) as [e|body] eqn:Hctl.
    - by rewrite (issue450_raises _ _ _ _ Hctl).
    - by rewrite (issue450_returns _ _ _ _ Hctl). }
  rewrite Hw. apply _get_traffic.
Qed.

Section Callers.
Context `{discovery30303} `{xmltodict} `{python}.

Lemma poll_self self w : self_after (async_get_status self w) = self.
Proof.
  destruct self as [s|s|s]; simpl; unfold invoke; simpl.
  - done.
  - by rewrite status_550_self.
  - unfold bind.
    pose proof (async_get_status_self s w) as Hself.
    destruct (SteamistModel450.async_get_status s w) as [[e|st] s' w'];
      simpl in *; by subst.
Qed.

Lemma poll_traffic self w :
  length (traffic (world_after (async_get_status self w))) =
    (length (traffic w) + if networked self Poll then 1 else 0)%nat.
Proof.
  destruct self as [s|s|s]; simpl; unfold invoke; simpl.
  - lia.
  - rewrite status_550_traffic. simpl. lia.
  - unfold bind.
    pose proof (async_get_status_world s w) as Hw.
    pose proof (_get_traffic STATUS_ENDPOINT None s w) as Htr.
    destruct (SteamistModel450.async_get_status s w) as [[e|st] s' w'];
      simpl in *; subst; rewrite Htr; simpl; lia.
Qed.

Lemma issue_frame c self w b t :
  with_transition b t (self_after (issue c self w)) =
    with_transition b t self.
Proof.
  destruct self as [s|s|s].
  - by destruct c.
  - by destruct c.
  - rewrite issue_on_450. apply issue450_self.
Qed.

Lemma issue_traffic c self w :
  length (traffic (world_after (issue c self w))) =
    (length (traffic w) + if networked self (Command c) then 1 else 0)%nat.
Proof.
  destruct self as [s|s|s].
  - destruct c; simpl; lia.
  - destruct c; simpl; lia.
  - rewrite issue_on_450. unfold invoke; simpl.
    rewrite issue450_traffic. simpl. lia.
Qed.

Lemma networked_frame x y b t s :
  with_transition b t x = with_transition b t y ->
  networked x s = networked y s.
Proof. by destruct x, y. Qed.

Lemma perform_result s self w : result (perform s self w) = inr tt.
Proof. by destruct s. Qed.

Lemma run_script_cons s rest self w :
  run_script (s :: rest) self w =
    run_script rest (self_after (perform s self w))
      (world_after (perform s self w)).
Proof.
  simpl. by rewrite (bind_returns _ _ _ _ _ (perform_result s self w)).
Qed.

Lemma perform_frame s self w b t :
  with_transition b t (self_after (perform s self w)) =
    with_transition b t self.
Proof.
  destruct s as [c| |q]; simpl.
  - apply issue_frame.
  - by rewrite poll_self.
  - done.
Qed.

Lemma perform_traffic s self w :
  length (traffic (world_after (perform s self w))) =
    (length (traffic w) + if networked self s then 1 else 0)%nat.
Proof.
  destruct s as [c| |q]; simpl.
  - apply issue_traffic.
  - apply poll_traffic.
  - destruct self; simpl; lia.
Qed.

(** X14.  Whatever a caller does with an instance (commands, polls and
    pauses in any order, with calls that raise or return), the instance
    keeps its class, its host, its timeout, its [_auth_invalid] and, on a
    450, its session: only the pending state and the expiry of the smoother
    can differ afterwards. *)
Theorem script_keeps_all_but_transition (steps : list step)
    (self : instance) (w : World) (b : bool) (t : Q) :
  with_transition b t (script_self steps self w) = with_transition b t self.
Proof.
  unfold script_self. revert self w.
  induction steps as [|s rest IH]; intros self w; [done|].
  rewrite run_script_cons, IH. apply perform_frame.
Qed.

(** X15.  Polling never touches the smoother: a script of polls and pauses
    only, whatever the polls raise or return, leaves the instance exactly
    as it was. *)
Theorem script_without_commands_is_read_only (steps : list step)
    (self : instance) (w : World) :
  forallb (fun s => negb (is_command s)) steps = true ->
  script_self steps self w = self.
Proof.
  unfold script_self. revert self w.
  induction steps as [|s rest IH]; intros self w Hall; [done|].
  simpl in Hall. apply andb_true_iff in Hall as [Hs Hall].
  rewrite run_script_cons, (IH _ _ Hall).
  destruct s as [c| |q]; [done| |done]. simpl. apply poll_self.
Qed.

(** X16.  One network operation per call, no retry: after a script the
    log of network operations has grown by exactly the number of steps
    that reach the network on the class of the instance, that is every
    command and poll on a 450, every poll on a 550, and nothing on the
    base class, whether the calls returned or raised. *)
Theorem script_traffic_count (steps : list step) (self : instance)
    (w : World) :
  length (traffic (script_world steps self w)) =
    (length (traffic w) + length (List.filter (networked self) steps))%nat.
Proof.
  unfold script_world. revert self w.
  induction steps as [|s rest IH]; intros self w; [simpl; lia|].
  rewrite run_script_cons, IH, perform_traffic.
  assert (Hsame : List.filter (networked (self_after (perform s self w)))
                    rest = List.filter (networked self) rest).
  { apply List.filter_ext. intros s'.
    apply (networked_frame _ _ false 0).
    apply perform_frame. }
  rewrite Hsame. simpl. destruct (networked self s); simpl; lia.
Qed.
End Callers.

Lemma script_without_commands_is_read_only_witness :
  @script_self (Sample.discovery [])
      (Sample.parser Sample.bodies) Sample.cpython
    [Poll; Sleep 3; Poll]
    (self_after (issue TurnOn (IsModel450 (Sample.adapter450 Sample.garbled))
                   Sample.start))
    Sample.later =
    self_after (issue TurnOn (IsModel450 (Sample.adapter450 Sample.garbled))
                  Sample.start).
Proof.
  apply (@script_without_commands_is_read_only (Sample.discovery [])
           (Sample.parser Sample.bodies) Sample.cpython).
  reflexivity.
Defined.

(** ** The factory and [model] *)

(** X17.  Given the model string of the 550 the factory does not call the
    session factory and returns a 550; given any other string it calls it
    once, passes on what it raises, and otherwise returns a 450 that holds
    the session made.  What the factory returns carries the given host, the
    default timeout of 10 seconds, an unarmed smoother (pending state
    false, expiry -1200) and [_auth_invalid = 0].  [model()] of a 450 it
    returns is the 450 constant, whatever string was given: [model()] of
    what the factory returns is the model string it was given exactly when
    that string is one of the two constants. *)
Theorem create_steamist_from_model `{discovery30303} (host model_ : string)
    (websession : session_factory) :
  (model_ = MODEL_550 ->
   exists self,
     create_steamist_from host model_ websession = inr (IsModel550 self)
     /\ Steamist._host self = host
     /\ Steamist._timeout self = 10%Z
     /\ Steamist._transiton_state self = false
     /\ Steamist._transition_complete_time self = (-1200)%Q
     /\ Steamist._auth_invalid self = 0%Z
     /\ model (IsModel550 self) = inr MODEL_550)
  /\ (model_ <> MODEL_550 ->
      match websession tt with
      | inl e => create_steamist_from host model_ websession = inl e
      | inr session =>
          exists self,
            create_steamist_from host model_ websession =
              inr (IsModel450 self)
            /\ SteamistModel450._websession self = session
            /\ Steamist._host (SteamistModel450.super self) = host
            /\ Steamist._timeout (SteamistModel450.super self) = 10%Z
            /\ Steamist._transiton_state (SteamistModel450.super self) =
                 false
            /\ Steamist._transition_complete_time
                 (SteamistModel450.super self) = (-1200)%Q
            /\ Steamist._auth_invalid (SteamistModel450.super self) = 0%Z
            /\ model (IsModel450 self) = inr MODEL_450
      end)
  /\ (forall made,
        create_steamist_from host model_ websession = inr made ->
        (model made = inr model_ <->
         model_ = MODEL_550 \/ model_ = MODEL_450)).
Proof.
  unfold create_steamist_from, SteamistModel550.model, ebind.
  destruct (String.eqb model_ MODEL_550) eqn:Heq.
  - apply String.eqb_eq in Heq as ->.
    split; [|split].
    + intros _. eexists. by repeat split.
    + done.
    + intros made [= <-]. split; [by left|done].
  - apply String.eqb_neq in Heq.
    split; [done|]. split.
    + intros _. destruct (websession tt) as [e|session]; [done|].
      eexists. by repeat split.
    + intros made Hmade.
      destruct (websession tt) as [e|session]; [done|].
      injection Hmade as <-. simpl. split.
      * intros [= <-]. by right.
      * intros [->| ->]; done.
Qed.
